(** * Transcript normalisation and content rendering of claude_chat_viewer.py

    A shallow embedding of [extract_text_content], [render_message_content],
    [parse_session] and [get_all_sessions], and the properties of the
    specification stated over it.

    Conventions of the embedding.
    - A Python [str] is a [string]; each character stands for one code point.
      The three pictographs of the HTML templates do not fit one character
      and are written as the bytes of the source file.
    - A decoded JSON value is a [json]; a [dict] keeps its keys in insertion
      order, as an association list read from the left.
    - An exception that leaves a function is a [Raise] result.
    - Calls into the Python library whose text is not part of the program
      ([json.loads], [json.dumps], [str], [re.sub]) are the fields of the
      class [Library]; everything is proved for every instance. *)

From Stdlib Require Import ZArith String Ascii List Bool Lia PrimFloat.
From Stdlib Require Import Sorted Permutation.
From stdpp Require Import gmap strings list pretty.

(* ===================================================================== *)
(** ** Python strings *)
(* ===================================================================== *)

Module PyStr.

(** The line feed and the double quote, which a literal cannot hold. *)
Definition nl : string := String "010"%char EmptyString.
Definition dq : string := String "034"%char EmptyString.

Definition quoted (s : string) : string := dq +:+ s +:+ dq.

Fixpoint spaces (n : nat) : string :=
  match n with
  | O => EmptyString
  | S n' => String " "%char (spaces n')
  end.

(** One line of a triple-quoted template: a line feed, the indentation of
    the source line, and its text. *)
Definition line (indent : nat) (s : string) : string :=
  nl +:+ spaces indent +:+ s.

Definition is_empty (s : string) : bool :=
  match s with
  | EmptyString => true
  | String _ _ => false
  end.

(** [s[:n]] *)
Fixpoint take (n : nat) (s : string) : string :=
  match n, s with
  | S n', String c s' => String c (take n' s')
  | _, _ => EmptyString
  end.

(** [s.replace(c, r)] for a one-character [c]. *)
Fixpoint replace_char (c : ascii) (r : string) (s : string) : string :=
  match s with
  | EmptyString => EmptyString
  | String a s' =>
      if Ascii.eqb a c then r +:+ replace_char c r s'
      else String a (replace_char c r s')
  end.

(** [sep.join(xs)] on a list of strings. *)
Fixpoint join (sep : string) (xs : list string) : string :=
  match xs with
  | [] => EmptyString
  | [x] => x
  | x :: rest => x +:+ sep +:+ join sep rest
  end.

(** [str.isspace] on one character: the white space of the code points
    below 256. *)
Definition is_space (c : ascii) : bool :=
  let n := nat_of_ascii c in
  ((9 <=? n) && (n <=? 13)) || ((28 <=? n) && (n <=? 32))
  || (n =? 133) || (n =? 160).

Fixpoint lstrip (s : string) : string :=
  match s with
  | EmptyString => EmptyString
  | String c s' => if is_space c then lstrip s' else s
  end.

Fixpoint rstrip (s : string) : string :=
  match s with
  | EmptyString => EmptyString
  | String c s' =>
      let r := rstrip s' in
      if is_space c && is_empty r then EmptyString else String c r
  end.

(** [s.strip()] *)
Definition strip (s : string) : string := rstrip (lstrip s).

(** [html.escape(s)] with its default [quote=True]: the ampersand first,
    then the two angle brackets and the two quotes.  No replacement text
    holds a character that a later pass rewrites, so the five passes act
    character by character. *)
Definition escape_char (c : ascii) : string :=
  if Ascii.eqb c "&"%char then "&amp;"
  else if Ascii.eqb c "<"%char then "&lt;"
  else if Ascii.eqb c ">"%char then "&gt;"
  else if Ascii.eqb c "034"%char then "&quot;"
  else if Ascii.eqb c "'"%char then "&#x27;"
  else String c EmptyString.

Fixpoint escape (s : string) : string :=
  match s with
  | EmptyString => EmptyString
  | String c s' => escape_char c +:+ escape s'
  end.

(** [p] is an initial segment of [s]. *)
Definition is_prefix (p s : string) : Prop := exists r, s = p +:+ r.

End PyStr.

(* ===================================================================== *)
(** ** Decoded JSON values and Python exceptions *)
(* ===================================================================== *)

(** What [json.loads] returns: [None], a [bool], an [int], a [float], a
    [str], a [list] or a [dict] with [str] keys. *)
#[warnings="-register-all"]
Inductive json : Type :=
| JNull
| JBool (b : bool)
| JInt (n : Z)
| JFloat (f : float)
| JStr (s : string)
| JArr (items : list json)
| JObj (fields : list (string * json)).

Definition dict : Type := list (string * json).

(** The exceptions the four functions can let escape.  [ValueError] and
    [RecursionError] are those that [json.loads] raises besides
    [json.JSONDecodeError]: the first on an integer literal longer than
    the interpreter's limit of digits, the second on nesting deeper than
    the recursion limit. *)
Inductive exn : Type :=
| AttributeError
| TypeError
| OSError
| ValueError
| RecursionError.

Inductive result (A : Type) : Type :=
| Ok (a : A)
| Raise (e : exn).
Arguments Ok {A} a.
Arguments Raise {A} e.

Definition bind {A B : Type} (m : result A) (k : A -> result B) : result B :=
  match m with
  | Ok a => k a
  | Raise e => Raise e
  end.

Notation "'let*' x ':=' m 'in' k" := (bind m (fun x => k))
  (at level 10, x name, m at level 100, k at level 200).

Module Py.

Fixpoint assoc (k : string) (d : dict) : option json :=
  match d with
  | [] => None
  | (k', v) :: d' => if String.eqb k k' then Some v else assoc k d'
  end.

(** [d.get(k, dflt)] *)
Definition get_or (d : dict) (k : string) (dflt : json) : json :=
  match assoc k d with
  | Some v => v
  | None => dflt
  end.

(** [d.get(k)] *)
Definition get (d : dict) (k : string) : json := get_or d k JNull.

(** [bool(v)], the test of [if v] and [not v]. *)
Definition truthy (v : json) : bool :=
  match v with
  | JNull => false
  | JBool b => b
  | JInt n => negb (n =? 0)%Z
  | JFloat f => negb (PrimFloat.eqb f 0%float)
  | JStr s => negb (PyStr.is_empty s)
  | JArr items => match items with [] => false | _ => true end
  | JObj fields => match fields with [] => false | _ => true end
  end.

(** [v == s] for a string literal [s]. *)
Definition eq_str (v : json) (s : string) : bool :=
  match v with
  | JStr s' => String.eqb s' s
  | _ => false
  end.

(** [v.get]: only a [dict] has the attribute. *)
Definition as_dict (v : json) : result dict :=
  match v with
  | JObj d => Ok d
  | _ => Raise AttributeError
  end.

(** [escape(v)]: [html.escape] calls [v.replace], which only a [str]
    has. *)
Definition escape (v : json) : result string :=
  match v with
  | JStr s => Ok (PyStr.escape s)
  | _ => Raise AttributeError
  end.

(** [len(v)] *)
Definition len (v : json) : result nat :=
  match v with
  | JStr s => Ok (String.length s)
  | JArr items => Ok (length items)
  | JObj fields => Ok (length fields)
  | _ => Raise TypeError
  end.

(** [sep.join(xs)]: every item has to be a [str]. *)
Fixpoint strings_of (xs : list json) : result (list string) :=
  match xs with
  | [] => Ok []
  | JStr s :: rest => let* ss := strings_of rest in Ok (s :: ss)
  | _ :: _ => Raise TypeError
  end.

Definition join (sep : string) (xs : list json) : result string :=
  let* ss := strings_of xs in Ok (PyStr.join sep ss).

End Py.

(* ===================================================================== *)
(** ** The Python library *)
(* ===================================================================== *)

(** What [json.loads] does on a text: it returns the decoded value, it
    raises [json.JSONDecodeError], or it raises another exception.  The
    last case is kept apart because [except json.JSONDecodeError] does
    not catch it. *)
Inductive loaded : Type :=
| Loaded (data : json)
| JSONDecodeError
| LoadRaise (e : exn).

Class Library : Type := {
  (** [json.loads(s)] *)
  json_loads : string -> loaded;
  (** [json.dumps(v, indent=2)] *)
  json_dumps : json -> string;
  (** [str(v)], which is also how an f-string formats [v]. *)
  str : json -> string;
  str_of_str : forall s, str (JStr s) = s;
  (** [re.sub] with the pattern of fenced code, three back-quotes, a
      language tag and a body, under [re.DOTALL]. *)
  re_sub_code_blocks : string -> string;
  (** [re.sub] with the pattern of inline code between two back-quotes. *)
  re_sub_inline_code : string -> string
}.

(* ===================================================================== *)
(** ** extract_text_content *)
(* ===================================================================== *)

Section Extract.
Context {lib : Library}.
Import PyStr.

(** What one turn of the loop appends to [texts]. *)
Definition extract_item (item : json) : list json :=
  match item with
  | JObj d =>
      if Py.eq_str (Py.get d "type") "text" then
        [Py.get_or d "text" (JStr EmptyString)]
      else if Py.eq_str (Py.get d "type") "thinking" then
        [JStr ("[THINKING]" +:+ nl
               +:+ str (Py.get_or d "thinking" (JStr EmptyString))
               +:+ nl +:+ "[/THINKING]")]
      else if Py.eq_str (Py.get d "type") "tool_use" then
        let tool_name := Py.get_or d "name" (JStr "Unknown") in
        let tool_input := json_dumps (Py.get_or d "input" (JObj [])) in
        [JStr ("[TOOL: " +:+ str tool_name +:+ "]" +:+ nl
               +:+ tool_input +:+ nl +:+ "[/TOOL]")]
      else []
  | JStr _ => [item]
  | _ => []
  end.

Definition extract_text_content (content : json) : result string :=
  match content with
  | JStr s => Ok s
  | JArr items => Py.join nl (flat_map extract_item items)
  | _ => Ok EmptyString
  end.

End Extract.

(* ===================================================================== *)
(** ** render_message_content *)
(* ===================================================================== *)

Section Render.
Context {lib : Library}.
Import PyStr.

Definition truncated_marker : string := "... (truncated)".

Definition text_html (text : string) : string :=
  "<div class=" +:+ quoted "text-content" +:+ ">" +:+ text +:+ "</div>".

Definition empty_message_html : string :=
  "<div class=" +:+ quoted "text-content" +:+ ">(empty message)</div>".

(** The unit of a thinking block.  The style sheet of the page hides
    [.thinking .message-content] until the unit gets the class
    [expanded]: the class [thinking] is what marks the unit as collapsed
    when the page opens. *)
Definition thinking_html (thinking : string) : string :=
  line 24 ("<div class=" +:+ quoted "message thinking" +:+ ">")
  +:+ line 28 ("<div class=" +:+ quoted "message-header" +:+ ">")
  +:+ line 32 "<span>💭 Thinking (click to expand)</span>"
  +:+ line 28 "</div>"
  +:+ line 28 ("<div class=" +:+ quoted "message-content" +:+ ">"
               +:+ thinking +:+ "</div>")
  +:+ line 24 "</div>"
  +:+ line 20 EmptyString.

Definition tool_call_html (header content : string) : string :=
  line 24 ("<div class=" +:+ quoted "tool-call" +:+ ">")
  +:+ line 28 ("<div class=" +:+ quoted "tool-call-header" +:+ ">"
               +:+ header +:+ "</div>")
  +:+ line 28 ("<div class=" +:+ quoted "tool-call-content" +:+ ">"
               +:+ content +:+ "</div>")
  +:+ line 24 "</div>"
  +:+ line 20 EmptyString.

(** The text of a [text] block after [escape]. *)
Definition format_text (text : string) : string :=
  replace_char "010"%char "<br>"
    (re_sub_inline_code (re_sub_code_blocks text)).

(** The body of a thinking block: [escape(...)[:1000]], with the marker
    when the text itself is longer than 1000. *)
Definition thinking_body (thinking : json) : result string :=
  let* escaped := Py.escape thinking in
  let body := take 1000 escaped in
  let* n := Py.len thinking in
  Ok (if 1000 <? n then body +:+ truncated_marker else body).

(** The chain on [tool_name] that sets [display]. *)
Definition tool_display (tool_name : string) (tool_input : json)
  : result string :=
  if String.eqb tool_name "Bash" then
    let* input := Py.as_dict tool_input in
    let cmd := Py.get_or input "command" (JStr EmptyString) in
    let desc := Py.get_or input "description" (JStr EmptyString) in
    Ok (if Py.truthy desc
        then "# " +:+ str desc +:+ nl +:+ "$ " +:+ str cmd
        else "$ " +:+ str cmd)
  else if String.eqb tool_name "Read" then
    let* input := Py.as_dict tool_input in
    Ok ("Reading: " +:+ str (Py.get_or input "file_path" (JStr EmptyString)))
  else if String.eqb tool_name "Write" then
    let* input := Py.as_dict tool_input in
    Ok ("Writing to: "
        +:+ str (Py.get_or input "file_path" (JStr EmptyString)))
  else if String.eqb tool_name "Edit" then
    let* input := Py.as_dict tool_input in
    Ok ("Editing: " +:+ str (Py.get_or input "file_path" (JStr EmptyString)))
  else if String.eqb tool_name "Grep" || String.eqb tool_name "Glob" then
    let* input := Py.as_dict tool_input in
    let pattern := Py.get_or input "pattern" (JStr EmptyString) in
    let path := Py.get_or input "path" (JStr ".") in
    Ok ("Pattern: " +:+ str pattern +:+ nl +:+ "Path: " +:+ str path)
  else if String.eqb tool_name "Task" then
    let* input := Py.as_dict tool_input in
    Ok ("Agent: "
        +:+ str (Py.get_or input "subagent_type" (JStr "unknown"))
        +:+ nl +:+ "Task: "
        +:+ str (Py.get_or input "description" (JStr EmptyString)))
  else
    Ok (take 500 (json_dumps tool_input)).

(** The body of a [tool_result] block before [escape]. *)
Definition tool_result_body (content : json) : string :=
  let result := take 1000 (str content) in
  if 1000 <? String.length (str content)
  then result +:+ truncated_marker
  else result.

(** What one turn of the loop appends to [html_parts]. *)
Definition render_item (item : json) : result (list string) :=
  match item with
  | JObj d =>
      let item_type := Py.get_or d "type" (JStr EmptyString) in
      if Py.eq_str item_type "text" then
        let* text := Py.escape (Py.get_or d "text" (JStr EmptyString)) in
        Ok [text_html (format_text text)]
      else if Py.eq_str item_type "thinking" then
        let* thinking :=
          thinking_body (Py.get_or d "thinking" (JStr EmptyString)) in
        Ok [thinking_html thinking]
      else if Py.eq_str item_type "tool_use" then
        let* tool_name := Py.escape (Py.get_or d "name" (JStr "Unknown")) in
        let tool_input := Py.get_or d "input" (JObj []) in
        let* display := tool_display tool_name tool_input in
        Ok [tool_call_html ("🔧 " +:+ tool_name) (escape display)]
      else if Py.eq_str item_type "tool_result" then
        let result :=
          tool_result_body (Py.get_or d "content" (JStr EmptyString)) in
        Ok [tool_call_html "📤 Tool Result" (escape result)]
      else Ok []
  | _ => Ok []
  end.

(** The loop over a block list: the parts appended, in order, or the
    exception of the first block that raises. *)
Fixpoint render_items (items : list json) : result (list string) :=
  match items with
  | [] => Ok []
  | item :: rest =>
      let* parts := render_item item in
      let* more := render_items rest in
      Ok (parts ++ more)
  end.

(** The closing line of the function. *)
Definition join_parts (html_parts : list string) : string :=
  match html_parts with
  | [] => empty_message_html
  | _ => join nl html_parts
  end.

Definition render_message_content (content : json) : result string :=
  match content with
  | JStr s =>
      Ok (join_parts
            [text_html (replace_char "010"%char "<br>" (escape s))])
  | JArr items =>
      let* html_parts := render_items items in
      Ok (join_parts html_parts)
  | _ => Ok (join_parts [])
  end.

End Render.

(* ===================================================================== *)
(** ** parse_session *)
(* ===================================================================== *)

(** An item of [messages]: the dict with the keys [role], [content],
    [timestamp] and [uuid]. *)
Module Message.
Record t : Type := make {
  role : json;
  content : json;
  timestamp : json;
  uuid : json
}.
End Message.

Section Parse.
Context {lib : Library}.

(** The two accumulators of the loop: [messages] and [session_info]. *)
Definition parse_state : Type := (list Message.t * gmap string json)%type.

(** [session_info.get(k)] *)
Definition info_get (session_info : gmap string json) (k : string) : json :=
  default JNull (session_info !! k).

(** The body of the loop over the lines of the file. *)
Definition parse_line (st : parse_state) (line : string)
  : result parse_state :=
  let '(messages, session_info) := st in
  let line := PyStr.strip line in
  if PyStr.is_empty line then Ok st
  else
    match json_loads line with
    | JSONDecodeError => Ok st
    | LoadRaise e => Raise e
    | Loaded data =>
        let* d := Py.as_dict data in
        if Py.eq_str (Py.get d "type") "summary" then
          Ok (messages,
              <["summary" := Py.get_or d "summary" (JStr EmptyString)]>
                session_info)
        else if Py.eq_str (Py.get d "type") "file-history-snapshot" then
          Ok st
        else
          let msg := Py.get_or d "message" (JObj []) in
          if negb (Py.truthy msg) then Ok st
          else
            let* m := Py.as_dict msg in
            let role :=
              Py.get_or m "role" (Py.get_or d "type" (JStr EmptyString)) in
            let content := Py.get_or m "content" (JStr EmptyString) in
            let timestamp := Py.get_or d "timestamp" (JStr EmptyString) in
            if Py.eq_str role "user" || Py.eq_str role "assistant" then
              let messages :=
                messages ++
                [Message.make role content timestamp
                   (Py.get_or d "uuid" (JStr EmptyString))] in
              if negb (Py.truthy (info_get session_info "sessionId")) then
                Ok (messages,
                    <["version" := Py.get_or d "version" (JStr EmptyString)]>
                      (<["cwd" := Py.get_or d "cwd" (JStr EmptyString)]>
                         (<["sessionId" :=
                              Py.get_or d "sessionId" (JStr EmptyString)]>
                            session_info)))
              else Ok (messages, session_info)
            else Ok st
    end.

Fixpoint parse_lines (st : parse_state) (lines : list string)
  : result parse_state :=
  match lines with
  | [] => Ok st
  | line :: rest =>
      let* st' := parse_line st line in
      parse_lines st' rest
  end.

(** [parse_session], on the lines that iterating over the open file
    yields. *)
Definition parse_session (lines : list string) : result parse_state :=
  parse_lines ([], ∅) lines.

End Parse.

(* ===================================================================== *)
(** ** get_all_sessions *)
(* ===================================================================== *)

(** An item of [sessions].  [modified] is the float [st_mtime]; the
    function only compares these values, and a finite double is an integer
    number of units of 2^-1074, which is the integer kept here. *)
Module Session.
Record t : Type := make {
  id : string;
  project : string;
  path : string;
  modified : Z;
  size : Z;
  message_count : nat;
  preview : json;
  summary : json
}.
End Session.

(** What the file system shows of one [*.jsonl] file: its stem, its path,
    the [st_mtime] and [st_size] of [stat()] and the lines of the file;
    [None] where the call raises. *)
Record session_file : Type := {
  stem : string;
  file_path : string;
  stat : option (Z * Z);
  file_lines : option (list string)
}.

(** One entry of [projects_dir.iterdir()] with the files its [glob]
    yields, in the order it yields them. *)
Record project_entry : Type := {
  name : string;
  is_dir : bool;
  jsonl_files : list session_file
}.

Section Sessions.
Context {lib : Library}.

(** [first_msg[:150] + '...' if len(first_msg) > 150 else first_msg],
    after a list was replaced by its extracted text.  A [dict] cannot be
    sliced. *)
Definition preview_of (first_msg : json) : result json :=
  let* first_msg :=
    match first_msg with
    | JArr _ => let* s := extract_text_content first_msg in Ok (JStr s)
    | _ => Ok first_msg
    end in
  let* n := Py.len first_msg in
  if 150 <? n then
    match first_msg with
    | JStr s => Ok (JStr (PyStr.take 150 s +:+ "..."))
    | _ => Raise TypeError
    end
  else Ok first_msg.

(** The body of the [try] for one file; [Raise] is what
    [except Exception] catches, [Ok None] a file without messages. *)
Definition session_of (project_path : string) (f : session_file)
  : result (option Session.t) :=
  match stat f, file_lines f with
  | Some (mtime, size), Some lines =>
      let* parsed := parse_session lines in
      let '(messages, info) := parsed in
      match messages with
      | [] => Ok None
      | first :: _ =>
          let* preview := preview_of (Message.content first) in
          Ok (Some (Session.make (stem f) project_path (file_path f)
                      mtime size (length messages) preview
                      (default (JStr EmptyString) (info !! "summary"))))
      end
  | _, _ => Raise OSError
  end.

Definition file_sessions (project_path : string) (f : session_file)
  : list Session.t :=
  if String.eqb (stem f) "sessions-index" then []
  else
    match session_of project_path f with
    | Ok (Some s) => [s]
    | _ => []
    end.

Definition project_sessions (p : project_entry) : list Session.t :=
  if is_dir p then
    let project_path := PyStr.replace_char "-"%char "/" (name p) in
    flat_map (file_sessions project_path) (jsonl_files p)
  else [].

(** [sessions] when the two loops are over, before the sort. *)
Definition collected_sessions (projects : list project_entry)
  : list Session.t :=
  flat_map project_sessions projects.

(** [sessions.sort(key=lambda x: x['modified'], reverse=True)].  The
    sort of a list is stable, and stays so with [reverse=True]: items
    with equal keys keep their order.  That fixes the outcome, which
    insertion from the right computes. *)
Fixpoint sort_insert (x : Session.t) (l : list Session.t)
  : list Session.t :=
  match l with
  | [] => [x]
  | y :: l' =>
      if (Session.modified x <? Session.modified y)%Z
      then y :: sort_insert x l'
      else x :: l
  end.

Fixpoint sort_modified_reverse (l : list Session.t) : list Session.t :=
  match l with
  | [] => []
  | x :: l' => sort_insert x (sort_modified_reverse l')
  end.

(** [get_all_sessions]; [None] when [projects_dir] does not exist. *)
Definition get_all_sessions (projects : option (list project_entry))
  : list Session.t :=
  match projects with
  | None => []
  | Some entries => sort_modified_reverse (collected_sessions entries)
  end.

End Sessions.

(* ===================================================================== *)
(** ** The vocabulary of the specification *)
(* ===================================================================== *)

Section Vocabulary.
Context {lib : Library}.

(** The record a line decodes to: none for a blank line and for a line
    that [json.loads] does not decode. *)
Definition record_of (line : string) : option json :=
  let line := PyStr.strip line in
  if PyStr.is_empty line then None
  else
    match json_loads line with
    | Loaded data => Some data
    | _ => None
    end.

(** The exception that [json.loads] raises on a line and that the
    [except] clause of the loop does not catch. *)
Definition load_raises (line : string) : option exn :=
  let line := PyStr.strip line in
  if PyStr.is_empty line then None
  else
    match json_loads line with
    | LoadRaise e => Some e
    | _ => None
    end.

(** A RawRecord of the data model: a JSON object whose [message], when
    it is there and not empty, is an object. *)
Definition is_record (data : json) : bool :=
  match data with
  | JObj d =>
      match Py.get_or d "message" (JObj []) with
      | JObj _ => true
      | m => negb (Py.truthy m)
      end
  | _ => false
  end.

(** A line of a transcript of records: blank, rejected by the decoder
    with [json.JSONDecodeError], or a RawRecord. *)
Definition line_ok (line : string) : bool :=
  match record_of line with
  | Some data => is_record data
  | None =>
      match load_raises line with
      | Some _ => false
      | None => true
      end
  end.

Definition dict_of (line : string) : option dict :=
  match record_of line with
  | Some (JObj d) => Some d
  | _ => None
  end.

(** The JSON objects of a transcript, in line order. *)
Definition records (lines : list string) : list dict :=
  omap dict_of lines.

Definition is_summary (d : dict) : bool :=
  Py.eq_str (Py.get d "type") "summary".

Definition is_snapshot (d : dict) : bool :=
  Py.eq_str (Py.get d "type") "file-history-snapshot".

Definition message_of (d : dict) : dict :=
  match Py.get_or d "message" (JObj []) with
  | JObj m => m
  | _ => []
  end.

(** The resolved role: [message.role], falling back to the [type] of the
    record. *)
Definition resolved_role (d : dict) : json :=
  Py.get_or (message_of d) "role" (Py.get_or d "type" (JStr EmptyString)).

Definition is_chat_role (role : json) : bool :=
  Py.eq_str role "user" || Py.eq_str role "assistant".

(** The records that become a Message. *)
Definition emits (d : dict) : bool :=
  negb (is_summary d) && negb (is_snapshot d)
  && Py.truthy (Py.get_or d "message" (JObj []))
  && is_chat_role (resolved_role d).

Definition to_message (d : dict) : Message.t :=
  Message.make (resolved_role d)
    (Py.get_or (message_of d) "content" (JStr EmptyString))
    (Py.get_or d "timestamp" (JStr EmptyString))
    (Py.get_or d "uuid" (JStr EmptyString)).

Definition line_emits (line : string) : bool :=
  match dict_of line with
  | Some d => emits d
  | None => false
  end.

Definition line_is_summary (line : string) : bool :=
  match dict_of line with
  | Some d => is_summary d
  | None => false
  end.

(** The count of the specification's testable property: the records
    whose resolved role is [user] or [assistant]. *)
Definition count_by_resolved_role (lines : list string) : nat :=
  length (List.filter (fun d => is_chat_role (resolved_role d))
            (records lines)).

(** The values of the [summary] field of the records that carry one, in
    line order. *)
Definition summary_fields (lines : list string) : list json :=
  omap (Py.assoc "summary") (records lines).

(** What one line does to the two accumulators when nothing raises. *)
Definition step (st : parse_state) (line : string) : parse_state :=
  match dict_of line with
  | None => st
  | Some d =>
      let '(messages, session_info) := st in
      if is_summary d then
        (messages,
         <["summary" := Py.get_or d "summary" (JStr EmptyString)]>
           session_info)
      else if emits d then
        (messages ++ [to_message d],
         if Py.truthy (info_get session_info "sessionId") then session_info
         else
           <["version" := Py.get_or d "version" (JStr EmptyString)]>
             (<["cwd" := Py.get_or d "cwd" (JStr EmptyString)]>
                (<["sessionId" :=
                     Py.get_or d "sessionId" (JStr EmptyString)]>
                   session_info)))
      else st
  end.

(** [isinstance(v, str)], [isinstance(v, dict)], [isinstance(v, list)] *)
Definition is_str (v : json) : bool :=
  match v with JStr _ => true | _ => false end.

Definition is_obj (v : json) : bool :=
  match v with JObj _ => true | _ => false end.

Definition is_list (v : json) : bool :=
  match v with JArr _ => true | _ => false end.

(** A block whose [text], when present, is a string. *)
Definition text_typed (item : json) : bool :=
  match item with
  | JObj d => is_str (Py.get_or d "text" (JStr EmptyString))
  | _ => true
  end.

(** A block typed as in the data model: a field that is present holds a
    string ([text], [thinking], [name]) or a mapping ([input]). *)
Definition block_typed (item : json) : bool :=
  match item with
  | JObj d =>
      is_str (Py.get_or d "text" (JStr EmptyString))
      && is_str (Py.get_or d "thinking" (JStr EmptyString))
      && is_str (Py.get_or d "name" (JStr "Unknown"))
      && is_obj (Py.get_or d "input" (JObj []))
  | _ => true
  end.

(** The fragment of one item in plain-text extraction, in the words of
    the specification. *)
Definition spec_fragment (item : json) : list string :=
  match item with
  | JObj d =>
      if Py.eq_str (Py.get d "type") "text" then
        [str (Py.get_or d "text" (JStr EmptyString))]
      else if Py.eq_str (Py.get d "type") "thinking" then
        [PyStr.join PyStr.nl
           ["[THINKING]";
            str (Py.get_or d "thinking" (JStr EmptyString));
            "[/THINKING]"]]
      else if Py.eq_str (Py.get d "type") "tool_use" then
        [PyStr.join PyStr.nl
           ["[TOOL: " +:+ str (Py.get_or d "name" (JStr "Unknown")) +:+ "]";
            json_dumps (Py.get_or d "input" (JObj []));
            "[/TOOL]"]]
      else []
  | JStr s => [s]
  | _ => []
  end.

(** The order of the catalogue: newest first. *)
Definition newer_or_equal (a b : Session.t) : Prop :=
  (Session.modified b <= Session.modified a)%Z.

(** The sessions of a list modified at the time [t], in list order. *)
Definition modified_at (t : Z) (l : list Session.t) : list Session.t :=
  List.filter (fun s => (Session.modified s =? t)%Z) l.

End Vocabulary.

(* ===================================================================== *)
(** ** An instance of the library for the worked examples *)
(* ===================================================================== *)

Module Example.
Import PyStr.

(** JSON text of an object with string values, and of a member whose
    value is given as text. *)
Definition member (k v : string) : string := quoted k +:+ ":" +:+ v.
Definition field (k v : string) : string := member k (quoted v).
Definition object (members : list string) : string :=
  "{" +:+ join "," members +:+ "}".

(** The lines of the examples. *)
Definition summary_A : string :=
  object [field "type" "summary"; field "summary" "A"].
Definition summary_B : string :=
  object [field "type" "summary"; field "summary" "B"].
Definition user_without_message : string :=
  object [field "type" "user"].
Definition summary_with_message : string :=
  object [field "type" "summary"; field "summary" "S";
          member "message"
            (object [field "role" "user"; field "content" "hello"])].
Definition user_hello : string :=
  object [field "type" "user"; field "sessionId" "s1"; field "cwd" "/a";
          field "version" "1.0"; field "uuid" "u1";
          member "message"
            (object [field "role" "user"; field "content" "hello"])].
Definition assistant_hi : string :=
  object [field "type" "assistant"; field "sessionId" "s2";
          field "cwd" "/b"; field "version" "2.0"; field "uuid" "u2";
          member "message"
            (object [field "role" "assistant"; field "content" "hi"])].
Definition not_json : string := "{not json".

(** What [json.loads] returns on each of them. *)
Definition decoded_lines : list (string * json) :=
  [ (summary_A, JObj [("type", JStr "summary"); ("summary", JStr "A")]);
    (summary_B, JObj [("type", JStr "summary"); ("summary", JStr "B")]);
    (user_without_message, JObj [("type", JStr "user")]);
    (summary_with_message,
     JObj [("type", JStr "summary"); ("summary", JStr "S");
           ("message",
            JObj [("role", JStr "user"); ("content", JStr "hello")])]);
    (user_hello,
     JObj [("type", JStr "user"); ("sessionId", JStr "s1");
           ("cwd", JStr "/a"); ("version", JStr "1.0"); ("uuid", JStr "u1");
           ("message",
            JObj [("role", JStr "user"); ("content", JStr "hello")])]);
    (assistant_hi,
     JObj [("type", JStr "assistant"); ("sessionId", JStr "s2");
           ("cwd", JStr "/b"); ("version", JStr "2.0"); ("uuid", JStr "u2");
           ("message",
            JObj [("role", JStr "assistant"); ("content", JStr "hi")])]) ].

(** An integer literal of 5000 digits, alone on its line and as the
    value of a member in an object that is broken off after it. *)
Definition huge_integer : string :=
  string_of_list_ascii (repeat "1"%char 5000).
Definition huge_integer_broken : string :=
  "{" +:+ quoted "n" +:+ ": " +:+ huge_integer +:+ ", oops".

(** The lines at which [json.loads] raises something else than
    [json.JSONDecodeError]: the conversion of an integer literal of more
    than 4300 digits raises [ValueError], before the decoder reads what
    follows the literal. *)
Definition raising_lines : list (string * exn) :=
  [ (huge_integer, ValueError); (huge_integer_broken, ValueError) ].

Fixpoint raised_at (s : string) (table : list (string * exn)) : option exn :=
  match table with
  | [] => None
  | (s', e) :: table' => if String.eqb s s' then Some e else raised_at s table'
  end.

(** A decoder from a table of decoded lines: the lines of the table
    decode, those of [raising_lines] raise, and any other text, such as
    [not_json], is rejected with [json.JSONDecodeError]. *)
Definition loads_from (table : list (string * json)) (s : string) : loaded :=
  match Py.assoc s table with
  | Some data => Loaded data
  | None =>
      match raised_at s raising_lines with
      | Some e => LoadRaise e
      | None => JSONDecodeError
      end
  end.

(** The decoder of the examples. *)
Definition loads (s : string) : loaded := loads_from decoded_lines s.

(** A thinking text of 2000 characters. *)
Definition long_body : string :=
  string_of_list_ascii (repeat "a"%char 2000).

(** Blocks of the examples: the three of the specification, and blocks
    without their optional fields. *)
Definition text_hi : json :=
  JObj [("type", JStr "text"); ("text", JStr "hi")].
Definition thinking_x : json :=
  JObj [("type", JStr "thinking"); ("thinking", JStr "x")].
Definition bash_echo : json :=
  JObj [("type", JStr "tool_use"); ("name", JStr "Bash");
        ("input", JObj [("command", JStr "echo <hi>")])].
Definition bare_blocks : list json :=
  [JObj [("type", JStr "text")]; JObj [("type", JStr "thinking")];
   JObj [("type", JStr "tool_use")]; JObj [("type", JStr "tool_result")];
   JObj [("type", JStr "image")]; JStr "raw"].

Definition hex_digit (n : nat) : ascii :=
  match String.get n "0123456789abcdef" with
  | Some c => c
  | None => "0"%char
  end.

Definition hex2 (c : ascii) : string :=
  let n := nat_of_ascii c in
  String (hex_digit (n / 16)) (String (hex_digit (n mod 16)) EmptyString).

(** A character inside a JSON string, with [ensure_ascii]. *)
Definition dumps_char (c : ascii) : string :=
  let n := nat_of_ascii c in
  if n =? 34 then "\" +:+ dq
  else if n =? 92 then "\\"
  else if n =? 10 then "\n"
  else if n =? 13 then "\r"
  else if n =? 9 then "\t"
  else if n =? 8 then "\b"
  else if n =? 12 then "\f"
  else if (n <? 32) || (126 <? n) then "\u00" +:+ hex2 c
  else String c EmptyString.

Fixpoint dumps_chars (s : string) : string :=
  match s with
  | EmptyString => EmptyString
  | String c s' => dumps_char c +:+ dumps_chars s'
  end.

Definition dumps_string (s : string) : string := quoted (dumps_chars s).

(** [json.dumps(v, indent=2)] at a nesting level.  A float has no
    printer here; no example holds one. *)
Fixpoint dumps_at (level : nat) (v : json) : string :=
  let inner := nl +:+ spaces (2 * S level) in
  let close := nl +:+ spaces (2 * level) in
  match v with
  | JNull => "null"
  | JBool true => "true"
  | JBool false => "false"
  | JInt n => pretty n
  | JFloat _ => "NaN"
  | JStr s => dumps_string s
  | JArr [] => "[]"
  | JArr items =>
      "[" +:+ inner
      +:+ join ("," +:+ inner) (map (dumps_at (S level)) items)
      +:+ close +:+ "]"
  | JObj [] => "{}"
  | JObj fields =>
      "{" +:+ inner
      +:+ join ("," +:+ inner)
            (map (fun kv =>
                    dumps_string (fst kv) +:+ ": "
                    +:+ dumps_at (S level) (snd kv)) fields)
      +:+ close +:+ "}"
  end.

Definition dumps (v : json) : string := dumps_at 0 v.

(** [repr] of a string: single quotes unless the text holds one and no
    double quote. *)
Fixpoint has_char (c : ascii) (s : string) : bool :=
  match s with
  | EmptyString => false
  | String a s' => Ascii.eqb a c || has_char c s'
  end.

Definition printable (n : nat) : bool :=
  ((32 <=? n) && (n <=? 126)) || ((161 <=? n) && negb (n =? 173)).

Definition repr_char (quote : ascii) (c : ascii) : string :=
  let n := nat_of_ascii c in
  if Ascii.eqb c quote || (n =? 92) then String "\"%char (String c EmptyString)
  else if n =? 9 then "\t"
  else if n =? 10 then "\n"
  else if n =? 13 then "\r"
  else if printable n then String c EmptyString
  else "\x" +:+ hex2 c.

Fixpoint repr_chars (quote : ascii) (s : string) : string :=
  match s with
  | EmptyString => EmptyString
  | String c s' => repr_char quote c +:+ repr_chars quote s'
  end.

Definition repr_string (s : string) : string :=
  let quote :=
    if has_char "'"%char s && negb (has_char "034"%char s)
    then "034"%char else "'"%char in
  String quote (repr_chars quote s) +:+ String quote EmptyString.

Fixpoint repr (v : json) : string :=
  match v with
  | JNull => "None"
  | JBool true => "True"
  | JBool false => "False"
  | JInt n => pretty n
  | JFloat _ => "nan"
  | JStr s => repr_string s
  | JArr items => "[" +:+ join ", " (map repr items) +:+ "]"
  | JObj fields =>
      "{" +:+ join ", "
                (map (fun kv => repr_string (fst kv) +:+ ": "
                                +:+ repr (snd kv)) fields)
      +:+ "}"
  end.

Definition to_str (v : json) : string :=
  match v with
  | JStr s => s
  | _ => repr v
  end.

(** The two substitutions leave a text without a back-quote as it is;
    no example holds one. *)
#[export] Instance library : Library := {|
  json_loads := loads;
  json_dumps := dumps;
  str := to_str;
  str_of_str := fun s => eq_refl;
  re_sub_code_blocks := fun text => text;
  re_sub_inline_code := fun text => text
|}.

End Example.

(* ===================================================================== *)
(** ** More of Python's strings and lists *)
(* ===================================================================== *)

Module PyOps.

(** [c in s] for one character. *)
Fixpoint mem_char (c : ascii) (s : string) : bool :=
  match s with
  | EmptyString => false
  | String a s' => Ascii.eqb a c || mem_char c s'
  end.

(** [s.lstrip(c)], [s.rstrip(c)] and [s.strip(c)] for a one-character
    [c]. *)
Fixpoint lstrip_char (c : ascii) (s : string) : string :=
  match s with
  | EmptyString => EmptyString
  | String a s' => if Ascii.eqb a c then lstrip_char c s' else s
  end.

Fixpoint rstrip_char (c : ascii) (s : string) : string :=
  match s with
  | EmptyString => EmptyString
  | String a s' =>
      let r := rstrip_char c s' in
      if Ascii.eqb a c && PyStr.is_empty r then EmptyString else String a r
  end.

Definition strip_char (c : ascii) (s : string) : string :=
  rstrip_char c (lstrip_char c s).

(** [s.split(c)] for a one-character [c]: the text between the
    occurrences of [c], at least one part. *)
Fixpoint split_char (c : ascii) (s : string) : list string :=
  match s with
  | EmptyString => [EmptyString]
  | String a s' =>
      if Ascii.eqb a c then EmptyString :: split_char c s'
      else
        match split_char c s' with
        | part :: parts => String a part :: parts
        | [] => [String a EmptyString]
        end
  end.

(** [sub in s]: [sub] occurs in [s]. *)
Fixpoint contains (sub s : string) : bool :=
  String.prefix sub s
  || match s with
     | EmptyString => false
     | String _ s' => contains sub s'
     end.

(** [s.replace(old, new)] for an [old] that is not empty: the occurrences
    of [old] from the left, none overlapping another.  [skip] counts the
    characters of an occurrence that are still to be passed over. *)
Fixpoint replace_from (old new : string) (skip : nat) (s : string) : string :=
  match s with
  | EmptyString => EmptyString
  | String c s' =>
      match skip with
      | S k => replace_from old new k s'
      | O =>
          if String.prefix old s
          then new +:+ replace_from old new (String.length old - 1) s'
          else String c (replace_from old new 0 s')
      end
  end.

Definition replace (old new s : string) : string := replace_from old new 0 s.

(** The position a slice bound [i] stands for in a list of length [n]:
    a negative bound counts from the end, and both ends clip. *)
Definition slice_index (i : Z) (n : nat) : nat :=
  if (i <? 0)%Z then Z.to_nat (Z.max 0 (Z.of_nat n + i))
  else Nat.min (Z.to_nat i) n.

(** [l[start:]] and [l[:stop]] *)
Definition slice_from {A : Type} (start : Z) (l : list A) : list A :=
  drop (slice_index start (length l)) l.

Definition slice_to {A : Type} (stop : Z) (l : list A) : list A :=
  take (slice_index stop (length l)) l.

End PyOps.

(* ===================================================================== *)
(** ** truncate_path *)
(* ===================================================================== *)

(** [truncate_path(path, max_parts)]; the callers leave [max_parts] at 2. *)
Definition truncate_path (path : string) (max_parts : Z) : string :=
  let parts := PyOps.split_char "/" (PyOps.strip_char "/" path) in
  if (Z.of_nat (length parts) <=? max_parts)%Z then path
  else ".../" +:+ PyStr.join "/" (PyOps.slice_from (- max_parts) parts).

(* ===================================================================== *)
(** ** LiveChatHandler and the limit of the static pages *)
(* ===================================================================== *)

(** What a request ends in.  For [IndexPage] the handler renders the list
    of the sessions it holds, for [SessionPage] it parses and renders the
    file of the session it holds; [NoContent] is the status 204 and
    [NotFound] the status 404. *)
Inductive response : Type :=
| IndexPage (sessions : list Session.t)
| SessionPage (session : Session.t)
| NoContent
| NotFound.

Section Server.
Context {lib : Library}.

(** [[s for s in sessions if session_id in s['id']]], in [serve_session]
    and in the single-session mode of [main]. *)
Definition matching (session_id : string) (sessions : list Session.t)
  : list Session.t :=
  List.filter (fun s => PyOps.contains session_id (Session.id s)) sessions.

(** [serve_session], on the catalogue that [get_all_sessions] returns at
    the time of the request. *)
Definition serve_session (sessions : list Session.t) (session_id : string)
  : response :=
  match matching session_id sessions with
  | [] => NotFound
  | session :: _ => SessionPage session
  end.

(** [do_GET], on the path that [urlparse] finds in the request. *)
Definition do_GET (projects : option (list project_entry)) (path : string)
  : response :=
  if String.eqb path "/" || String.eqb path "/index.html" then
    IndexPage (get_all_sessions projects)
  else if String.prefix "/session/" path then
    let session_id :=
      PyOps.replace ".html" EmptyString
        (PyOps.replace "/session/" EmptyString path) in
    serve_session (get_all_sessions projects) session_id
  else if String.eqb path "/favicon.ico" then NoContent
  else NotFound.

(** [get_all_sessions(claude_dir)[:limit]]: the sessions that
    [generate_static_html] writes pages for and that [list_sessions]
    prints. *)
Definition limited_sessions (projects : option (list project_entry))
  (limit : Z) : list Session.t :=
  PyOps.slice_to limit (get_all_sessions projects).

End Server.

(* ===================================================================== *)
(** ** More vocabulary *)
(* ===================================================================== *)

Section MoreVocabulary.
Context {lib : Library}.

(** No character that opens or closes a tag or an attribute value. *)
Definition markup_free (s : string) : bool :=
  negb (PyOps.mem_char "<"%char s) && negb (PyOps.mem_char ">"%char s)
  && negb (PyOps.mem_char "034"%char s) && negb (PyOps.mem_char "'"%char s).

(** A unit of a thinking block, a tool use or a tool result whose fillings
    are free of markup. *)
Definition escaped_unit (part : string) : Prop :=
  (exists body, part = thinking_html body /\ markup_free body = true)
  \/ (exists header content,
        part = tool_call_html header content
        /\ markup_free header = true /\ markup_free content = true).

(** The tools whose [display] is read from the fields of [input]. *)
Definition known_tool (tool_name : string) : bool :=
  existsb (String.eqb tool_name)
    ["Bash"; "Read"; "Write"; "Edit"; "Grep"; "Glob"; "Task"].

(** A block of a type that neither renderer knows, or no block at all. *)
Definition unknown_block (item : json) : bool :=
  match item with
  | JObj d =>
      let item_type := Py.get_or d "type" (JStr EmptyString) in
      negb (Py.eq_str item_type "text" || Py.eq_str item_type "thinking"
            || Py.eq_str item_type "tool_use"
            || Py.eq_str item_type "tool_result")
  | _ => true
  end.

(** A text block whose [text] is there and is no string. *)
Definition ill_typed_text (item : json) : bool :=
  match item with
  | JObj d =>
      Py.eq_str (Py.get_or d "type" (JStr EmptyString)) "text"
      && negb (is_str (Py.get_or d "text" (JStr EmptyString)))
  | _ => false
  end.


(** The [sessionId] of an emitting line is empty or missing. *)
Definition emits_without_session_id (line : string) : bool :=
  match dict_of line with
  | Some d =>
      negb (emits d)
      || negb (Py.truthy (Py.get_or d "sessionId" (JStr EmptyString)))
  | None => true
  end.

(** What a preview can be: a string of at most 153 characters or a
    mapping of at most 150 keys. *)
Definition preview_bounded (preview : json) : Prop :=
  match preview with
  | JStr s => String.length s <= 153
  | JObj fields => length fields <= 150
  | _ => False
  end.

(** Why a file leaves no entry in the catalogue: it is the index file,
    [stat] or the reading raises, the transcript raises, it yields no
    Message, or the preview of its first Message raises. *)
Definition left_out (f : session_file) : Prop :=
  stem f = "sessions-index"
  \/ stat f = None
  \/ file_lines f = None
  \/ (exists lines e,
        file_lines f = Some lines /\ parse_session lines = Raise e)
  \/ (exists lines session_info,
        file_lines f = Some lines
        /\ parse_session lines = Ok ([], session_info))
  \/ (exists lines first rest session_info e,
        file_lines f = Some lines
        /\ parse_session lines = Ok (first :: rest, session_info)
        /\ preview_of (Message.content first) = Raise e).

(** The keys that [session_info] can hold. *)
Definition info_keys : list string :=
  ["summary"; "sessionId"; "cwd"; "version"].

(** What the pass keeps true of its two accumulators: no other key is
    set, [sessionId] is set once there is a Message, and [cwd] and
    [version] are set with it. *)
Definition info_invariant (st : parse_state) : Prop :=
  (forall k, is_Some (st.2 !! k) -> In k info_keys)
  /\ (st.2 !! "sessionId" = None <-> st.1 = [])
  /\ (is_Some (st.2 !! "cwd") <-> is_Some (st.2 !! "sessionId"))
  /\ (is_Some (st.2 !! "version") <-> is_Some (st.2 !! "sessionId")).



End MoreVocabulary.

(* ===================================================================== *)
(** ** A second instance, with more lines and a directory tree *)
(* ===================================================================== *)

Module Sample.
Import PyStr.

(** A line holding a number, a record whose [message] is a string, and
    two messages that carry no [sessionId]. *)
Definition number_line : string := "42".
Definition string_message : string :=
  Example.object [Example.field "type" "user";
                  Example.field "message" "hello"].
Definition user_bare : string :=
  Example.object
    [Example.field "type" "user"; Example.field "cwd" "/x";
     Example.field "version" "0.9";
     Example.member "message"
       (Example.object [Example.field "content" "one"])].
Definition assistant_bare : string :=
  Example.object
    [Example.field "type" "assistant"; Example.field "cwd" "/y";
     Example.member "message"
       (Example.object [Example.field "content" "two"])].

Definition decoded_lines : list (string * json) :=
  Example.decoded_lines ++
  [ (number_line, JInt 42);
    (string_message, JObj [("type", JStr "user"); ("message", JStr "hello")]);
    (user_bare,
     JObj [("type", JStr "user"); ("cwd", JStr "/x"); ("version", JStr "0.9");
           ("message", JObj [("content", JStr "one")])]);
    (assistant_bare,
     JObj [("type", JStr "assistant"); ("cwd", JStr "/y");
           ("message", JObj [("content", JStr "two")])]) ].

Definition loads (s : string) : loaded := Example.loads_from decoded_lines s.

(** As [Example.library], with the longer table. *)
#[export] Instance library : Library := {|
  json_loads := loads;
  json_dumps := Example.dumps;
  str := Example.to_str;
  str_of_str := fun s => eq_refl;
  re_sub_code_blocks := fun text => text;
  re_sub_inline_code := fun text => text
|}.

(** Two project directories and a plain file.  The first directory holds
    a transcript, the index file, a transcript that raises and one
    without messages; the second holds two transcripts, one as old as the
    transcript of the first directory. *)
Definition file_a : session_file :=
  {| stem := "aaaa1111"; file_path := "/p/-home-me-proj/aaaa1111.jsonl";
     stat := Some (100, 2048)%Z;
     file_lines := Some [Example.user_hello; Example.assistant_hi] |}.
Definition file_index : session_file :=
  {| stem := "sessions-index";
     file_path := "/p/-home-me-proj/sessions-index.jsonl";
     stat := Some (900, 1)%Z; file_lines := Some [Example.user_hello] |}.
Definition file_raising : session_file :=
  {| stem := "bad00000"; file_path := "/p/-home-me-proj/bad00000.jsonl";
     stat := Some (800, 3)%Z;
     file_lines := Some [Example.user_hello; number_line] |}.
Definition file_silent : session_file :=
  {| stem := "none0000"; file_path := "/p/-home-me-proj/none0000.jsonl";
     stat := Some (700, 4)%Z; file_lines := Some [Example.summary_A] |}.
Definition file_b : session_file :=
  {| stem := "bbbb2222"; file_path := "/p/-srv-app/bbbb2222.jsonl";
     stat := Some (300, 10)%Z;
     file_lines := Some [Example.summary_B; Example.assistant_hi] |}.
Definition file_c : session_file :=
  {| stem := "cccc3333"; file_path := "/p/-srv-app/cccc3333.jsonl";
     stat := Some (100, 5)%Z; file_lines := Some [Example.user_hello] |}.

Definition project_one : project_entry :=
  {| name := "-home-me-proj"; is_dir := true;
     jsonl_files := [file_a; file_index; file_raising; file_silent] |}.
Definition plain_file : project_entry :=
  {| name := "notes.txt"; is_dir := false; jsonl_files := [file_c] |}.
Definition project_two : project_entry :=
  {| name := "-srv-app"; is_dir := true; jsonl_files := [file_b; file_c] |}.

Definition projects : option (list project_entry) :=
  Some [project_one; plain_file; project_two].

(** The three entries of the catalogue of [projects]. *)
Definition session_a : Session.t :=
  Session.make "aaaa1111" "/home/me/proj" "/p/-home-me-proj/aaaa1111.jsonl"
    100 2048 2 (JStr "hello") (JStr EmptyString).
Definition session_b : Session.t :=
  Session.make "bbbb2222" "/srv/app" "/p/-srv-app/bbbb2222.jsonl"
    300 10 1 (JStr "hi") (JStr "B").
Definition session_c : Session.t :=
  Session.make "cccc3333" "/srv/app" "/p/-srv-app/cccc3333.jsonl"
    100 5 1 (JStr "hello") (JStr EmptyString).

(** The Messages and the metadata of the two lines of [file_a]. *)
Definition message_hello : Message.t :=
  Message.make (JStr "user") (JStr "hello") (JStr EmptyString) (JStr "u1").
Definition message_hi : Message.t :=
  Message.make (JStr "assistant") (JStr "hi") (JStr EmptyString) (JStr "u2").
Definition info_hello : gmap string json :=
  <["version" := JStr "1.0"]>
    (<["cwd" := JStr "/a"]> (<["sessionId" := JStr "s1"]> ∅)).

End Sample.

(* ===================================================================== *)
(** ** Lemmas on the pass over the lines *)
(* ===================================================================== *)

Section ParseLemmas.
Context {lib : Library}.

Lemma parse_lines_app st l1 l2 :
  parse_lines st (l1 ++ l2)
  = let* st' := parse_lines st l1 in parse_lines st' l2.
Proof.
  revert st. induction l1 as [|line l1 IH]; intros st; simpl; [done|].
  destruct (parse_line st line) as [st'|e]; simpl; [apply IH | done].
Qed.

Lemma record_of_Some line data :
  record_of line = Some data ->
  PyStr.is_empty (PyStr.strip line) = false
  /\ json_loads (PyStr.strip line) = Loaded data.
Proof.
  unfold record_of. destruct (PyStr.is_empty (PyStr.strip line)); [done|].
  destruct (json_loads (PyStr.strip line)); try done. by intros [= ->].
Qed.

Lemma record_of_Some_load_raises line data :
  record_of line = Some data -> load_raises line = None.
Proof.
  intros [Hempty Hload]%record_of_Some. unfold load_raises.
  by rewrite Hempty, Hload.
Qed.

Lemma dict_of_None_parse_line st line :
  record_of line = None -> load_raises line = None ->
  parse_line st line = Ok st.
Proof.
  unfold record_of, load_raises, parse_line.
  destruct st as [messages session_info].
  destruct (PyStr.is_empty (PyStr.strip line)); [done|].
  by destruct (json_loads (PyStr.strip line)).
Qed.


Lemma parse_line_step st line :
  line_ok line = true -> parse_line st line = Ok (step st line).
Proof.
  unfold line_ok, step, dict_of. destruct (record_of line) as [data|] eqn:Hrec.
  2: { destruct (load_raises line) eqn:Hload; [discriminate|].
       intros _. by apply dict_of_None_parse_line. }
  intros Hok. destruct data as [| | | | |items|d]; try discriminate Hok.
  apply record_of_Some in Hrec as [Hempty Hrec]. unfold parse_line.
  destruct st as [messages session_info].
  rewrite Hempty, Hrec. simpl bind. unfold emits, is_summary, is_snapshot.
  destruct (Py.eq_str (Py.get d "type") "summary"); [done|].
  destruct (Py.eq_str (Py.get d "type") "file-history-snapshot"); [done|].
  simpl negb. simpl andb. unfold resolved_role, to_message, resolved_role, message_of.
  unfold is_record in Hok.
  destruct (Py.get_or d "message" (JObj [])) as [|b|n|f|s|items|m];
    try (cbv beta iota in Hok; rewrite Hok;
         apply negb_true_iff in Hok; by rewrite Hok).
  destruct (Py.truthy (JObj m)); [|done]. simpl.
  destruct (is_chat_role _) eqn:Hrole; unfold is_chat_role in Hrole;
    rewrite Hrole; [|done].
  by destruct (Py.truthy (info_get session_info "sessionId")).
Qed.

Lemma parse_lines_steps st lines :
  Forall (fun line => line_ok line = true) lines ->
  parse_lines st lines = Ok (fold_left step lines st).
Proof.
  intros Hok. revert st.
  induction Hok as [|line lines Hline _ IH]; intros st; simpl; [done|].
  rewrite (parse_line_step _ _ Hline). simpl. apply IH.
Qed.

Lemma records_cons line lines :
  records (line :: lines)
  = match dict_of line with
    | Some d => d :: records lines
    | None => records lines
    end.
Proof. done. Qed.

Lemma records_app l1 l2 : records (l1 ++ l2) = records l1 ++ records l2.
Proof. apply omap_app. Qed.

Lemma is_summary_not_emits d : is_summary d = true -> emits d = false.
Proof. unfold emits. by intros ->. Qed.

(** The messages of a pass: one per emitting record, in line order. *)
Lemma steps_messages lines messages session_info :
  (fold_left step lines (messages, session_info)).1
  = messages ++ map to_message (List.filter emits (records lines)).
Proof.
  revert messages session_info.
  induction lines as [|line lines IH]; intros messages session_info.
  { simpl. by rewrite app_nil_r. }
  rewrite records_cons. cbn [fold_left]. unfold step at 2.
  destruct (dict_of line) as [d|]; [|apply IH]. cbn [List.filter].
  destruct (is_summary d) eqn:Hsum.
  { rewrite (is_summary_not_emits _ Hsum). apply IH. }
  destruct (emits d); [|apply IH].
  rewrite IH. cbn [map]. by rewrite <- app_assoc.
Qed.

(** A line that is no summary record leaves the summary as it is. *)
Lemma step_summary_kept line messages session_info :
  line_is_summary line = false ->
  (step (messages, session_info) line).2 !! "summary"
  = session_info !! "summary".
Proof.
  unfold line_is_summary, step. destruct (dict_of line) as [d|]; [|done].
  intros ->. destruct (emits d); [|done]. simpl.
  destruct (Py.truthy _); [done|].
  by rewrite !lookup_insert_ne.
Qed.

Lemma steps_summary_kept lines st :
  Forall (fun line => line_is_summary line = false) lines ->
  (fold_left step lines st).2 !! "summary" = st.2 !! "summary".
Proof.
  intros Hno. revert st.
  induction Hno as [|line lines Hline _ IH]; intros st; simpl; [done|].
  rewrite IH. destruct st. by apply step_summary_kept.
Qed.

(** Once [sessionId] holds a value that is not empty, no line changes a
    key other than [summary]. *)
Lemma step_captured_kept line messages session_info k :
  k <> "summary" ->
  Py.truthy (info_get session_info "sessionId") = true ->
  (step (messages, session_info) line).2 !! k = session_info !! k.
Proof.
  intros Hk Hcap. unfold step. destruct (dict_of line) as [d|]; [|done].
  destruct (is_summary d).
  { simpl. by rewrite lookup_insert_ne. }
  destruct (emits d); [|done]. simpl. by rewrite Hcap.
Qed.

Lemma steps_captured_kept lines st k :
  k <> "summary" ->
  Py.truthy (info_get st.2 "sessionId") = true ->
  (fold_left step lines st).2 !! k = st.2 !! k.
Proof.
  intros Hk. revert st.
  induction lines as [|line lines IH]; intros [messages session_info] Hcap;
    simpl; [done|].
  assert (Hkept : forall k', k' <> "summary" ->
            (step (messages, session_info) line).2 !! k'
            = session_info !! k')
    by (intros; by apply step_captured_kept).
  rewrite IH.
  - by apply Hkept.
  - simpl in Hcap. unfold info_get in *. by rewrite Hkept.
Qed.

(** Before the first emitting record the pass has no message and has
    set no key other than [summary]. *)
Lemma steps_silent lines session_info :
  Forall (fun line => line_emits line = false) lines ->
  exists session_info',
    fold_left step lines ([], session_info) = ([], session_info')
    /\ forall k, k <> "summary" -> session_info' !! k = session_info !! k.
Proof.
  intros Hno. revert session_info.
  induction Hno as [|line lines Hline _ IH]; intros session_info; simpl.
  { by exists session_info. }
  unfold step at 2. unfold line_emits in Hline.
  destruct (dict_of line) as [d|]; [|apply IH].
  destruct (is_summary d).
  - destruct (IH (<["summary" := Py.get_or d "summary" (JStr EmptyString)]>
                    session_info)) as (info' & Hrun & Hkeys).
    exists info'. split; [done|]. intros k Hk.
    rewrite Hkeys by done. by rewrite lookup_insert_ne.
  - rewrite Hline. apply IH.
Qed.

End ParseLemmas.

(* ===================================================================== *)
(** ** Normalisation: the claims on parse_session *)
(* ===================================================================== *)

Section ParseTheorems.
Context {lib : Library}.

Lemma parse_line_summary st line d :
  dict_of line = Some d -> is_summary d = true ->
  parse_line st line = Ok (step st line).
Proof.
  unfold step, dict_of. intros Hd Hsum.
  destruct (record_of line) as [[| | | | | |d']|] eqn:Hrec; try discriminate Hd.
  injection Hd as ->. rewrite Hsum.
  apply record_of_Some in Hrec as [Hempty Hrec]. unfold parse_line.
  destruct st as [messages session_info].
  rewrite Hempty, Hrec. simpl bind. unfold is_summary in Hsum. by rewrite Hsum.
Qed.

(** C1, as the code has it: the summary that normalisation returns is
    the [summary] value (the empty string when the field is absent) of
    the LAST record of type [summary] in line order, and such a record
    produces no Message: the transcript without it yields the same
    Messages. *)
Theorem summary_last_wins pre l post d :
  Forall (fun line => line_ok line = true) (pre ++ post) ->
  dict_of l = Some d ->
  is_summary d = true ->
  Forall (fun line => line_is_summary line = false) post ->
  exists messages session_info session_info',
    parse_session (pre ++ l :: post) = Ok (messages, session_info)
    /\ parse_session (pre ++ post) = Ok (messages, session_info')
    /\ session_info !! "summary"
       = Some (Py.get_or d "summary" (JStr EmptyString)).
Proof.
  intros Hok Hd Hsum Hpost.
  apply Forall_app in Hok as [Hpre Hrest].
  unfold parse_session.
  rewrite !parse_lines_app, (parse_lines_steps _ _ Hpre).
  cbn [bind parse_lines].
  rewrite (parse_line_summary _ _ _ Hd Hsum). cbn [bind].
  rewrite !(parse_lines_steps _ _ Hrest).
  destruct (fold_left step pre ([], ∅)) as [messages1 info1] eqn:Hrun.
  assert (Hstep : step (messages1, info1) l
                  = (messages1,
                     <["summary" := Py.get_or d "summary" (JStr EmptyString)]>
                       info1))
    by (unfold step; by rewrite Hd, Hsum).
  rewrite Hstep.
  set (info2 := <["summary" := _]> info1).
  exists (fold_left step post (messages1, info2)).1,
         (fold_left step post (messages1, info2)).2,
         (fold_left step post (messages1, info1)).2.
  split; [by rewrite <- surjective_pairing|].
  split.
  - rewrite (surjective_pairing (fold_left step post (messages1, info1))).
    by rewrite !steps_messages.
  - rewrite (steps_summary_kept _ _ Hpost). apply lookup_insert_eq.
Qed.

(** C3: when the record of the first emitted Message carries a
    [sessionId] that is not empty, the [sessionId], [cwd] and [version]
    that normalisation returns are the values of that record, whatever
    the later records carry. *)
Theorem session_metadata_first_wins pre l post d :
  Forall (fun line => line_ok line = true) (pre ++ l :: post) ->
  Forall (fun line => line_emits line = false) pre ->
  dict_of l = Some d ->
  emits d = true ->
  Py.truthy (Py.get_or d "sessionId" (JStr EmptyString)) = true ->
  exists messages session_info,
    parse_session (pre ++ l :: post) = Ok (messages, session_info)
    /\ head messages = Some (to_message d)
    /\ session_info !! "sessionId"
       = Some (Py.get_or d "sessionId" (JStr EmptyString))
    /\ session_info !! "cwd" = Some (Py.get_or d "cwd" (JStr EmptyString))
    /\ session_info !! "version"
       = Some (Py.get_or d "version" (JStr EmptyString)).
Proof.
  intros Hok Hpre Hd Hemit Hsid.
  unfold parse_session. rewrite (parse_lines_steps _ _ Hok).
  rewrite fold_left_app. cbn [fold_left].
  destruct (steps_silent pre ∅ Hpre) as (info1 & -> & Hkeys).
  assert (Hnone : info_get info1 "sessionId" = JNull).
  { unfold info_get. by rewrite Hkeys, lookup_empty. }
  assert (Hsum : is_summary d = false).
  { destruct (is_summary d) eqn:E; [|done].
    by rewrite (is_summary_not_emits _ E) in Hemit. }
  assert (Hstep : step ([], info1) l
                  = ([to_message d],
                     <["version" := Py.get_or d "version" (JStr EmptyString)]>
                       (<["cwd" := Py.get_or d "cwd" (JStr EmptyString)]>
                          (<["sessionId" :=
                               Py.get_or d "sessionId" (JStr EmptyString)]>
                             info1)))).
  { unfold step. by rewrite Hd, Hsum, Hemit, Hnone. }
  rewrite Hstep.
  set (info2 := <["version" := _]> _).
  assert (Hcap : Py.truthy (info_get info2 "sessionId") = true).
  { unfold info_get, info2.
    rewrite lookup_insert_ne, lookup_insert_ne, lookup_insert_eq by done.
    done. }
  eexists _, _. split; [by rewrite <- surjective_pairing|].
  split; [by rewrite steps_messages|].
  rewrite !steps_captured_kept by done. unfold info2. cbn [snd].
  repeat split.
  - by rewrite lookup_insert_ne, lookup_insert_ne, lookup_insert_eq.
  - by rewrite lookup_insert_ne, lookup_insert_eq.
  - by rewrite lookup_insert_eq.
Qed.

(** C4, as the code has it: on a transcript of records, normalisation
    returns one Message for each record that is neither a summary nor a
    file-history snapshot, carries a [message] that is not empty and
    resolves to the role [user] or [assistant]; the Messages come in the
    line order of these records, none moved, merged or dropped. *)
Theorem messages_in_line_order lines :
  Forall (fun line => line_ok line = true) lines ->
  exists session_info,
    parse_session lines
    = Ok (map to_message (List.filter emits (records lines)), session_info).
Proof.
  intros Hok. unfold parse_session. rewrite (parse_lines_steps _ _ Hok).
  exists (fold_left step lines ([], ∅)).2.
  rewrite (surjective_pairing (fold_left step lines ([], ∅))) at 1.
  by rewrite steps_messages.
Qed.


End ParseTheorems.

(* ===================================================================== *)
(** ** Lemmas on strings and on the two renderers *)
(* ===================================================================== *)

Section StringLemmas.
Import PyStr.
Local Arguments String.append : simpl nomatch.

Lemma length_append s1 s2 :
  String.length (s1 +:+ s2) = String.length s1 + String.length s2.
Proof. induction s1 as [|c s1 IH]; simpl; [done | by rewrite IH]. Qed.


Lemma append_assoc s1 s2 s3 : (s1 +:+ s2) +:+ s3 = s1 +:+ s2 +:+ s3.
Proof. induction s1 as [|c s1 IH]; simpl; [done | by f_equal]. Qed.


Lemma take_length n s : String.length (take n s) <= n.
Proof.
  revert s. induction n as [|n IH]; intros [|c s]; simpl; try lia.
  specialize (IH s). lia.
Qed.

Lemma is_prefix_nil s : is_prefix EmptyString s.
Proof. by exists s. Qed.

Lemma is_prefix_cons c p s : is_prefix p s -> is_prefix (String c p) (String c s).
Proof. intros [r ->]. by exists r. Qed.



Lemma escape_char_cons c : exists a e, escape_char c = String a e.
Proof. unfold escape_char. repeat case_match; eauto. Qed.



Lemma escape_length s : String.length s <= String.length (escape s).
Proof.
  induction s as [|c s IH]; simpl; [done|].
  destruct (escape_char_cons c) as (a & e & ->). simpl.
  rewrite length_append. lia.
Qed.

End StringLemmas.

Section RenderLemmas.
Context {lib : Library}.
Import PyStr.

Lemma render_items_app items1 items2 :
  render_items (items1 ++ items2)
  = let* parts := render_items items1 in
    let* more := render_items items2 in
    Ok (parts ++ more).
Proof.
  induction items1 as [|item items1 IH]; simpl.
  { by destruct (render_items items2). }
  destruct (render_item item) as [parts|e]; simpl; [|done].
  rewrite IH. destruct (render_items items1) as [parts1|e]; simpl; [|done].
  destruct (render_items items2) as [parts2|e]; simpl; [|done].
  by rewrite app_assoc.
Qed.

Lemma render_item_not_obj item :
  is_obj item = false -> render_item item = Ok [].
Proof. by destruct item. Qed.

Lemma render_items_not_obj items :
  Forall (fun item => is_obj item = false) items ->
  render_items items = Ok [].
Proof.
  induction 1 as [|item items Hitem _ IH]; simpl; [done|].
  by rewrite (render_item_not_obj _ Hitem), IH.
Qed.

Lemma tool_display_obj tool_name input :
  exists display, tool_display tool_name (JObj input) = Ok display.
Proof. unfold tool_display. repeat case_match; simpl; eauto. Qed.

Lemma render_item_typed item :
  block_typed item = true -> exists parts, render_item item = Ok parts.
Proof.
  destruct item as [|b|n|f|s|items|d]; simpl; eauto.
  intros Htyped. repeat (apply andb_prop in Htyped as [Htyped ?]).
  destruct (Py.get_or d "text" (JStr EmptyString)); try done.
  destruct (Py.get_or d "thinking" (JStr EmptyString)); try done.
  destruct (Py.get_or d "name" (JStr "Unknown")); try done.
  destruct (Py.get_or d "input" (JObj [])) as [| | | | | |input]; try done.
  repeat case_match; simpl; eauto.
  destruct (tool_display_obj (escape s1) input) as [display ->].
  simpl. eauto.
Qed.

Lemma render_items_typed items :
  Forall (fun item => block_typed item = true) items ->
  exists parts, render_items items = Ok parts.
Proof.
  induction 1 as [|item items Hitem _ [more IH]]; simpl; eauto.
  destruct (render_item_typed _ Hitem) as [parts ->]. rewrite IH.
  simpl. eauto.
Qed.

Lemma strings_of_app ss rest :
  Py.strings_of (map JStr ss ++ rest)
  = let* more := Py.strings_of rest in Ok (ss ++ more).
Proof.
  induction ss as [|s ss IH]; simpl.
  { by destruct (Py.strings_of rest). }
  rewrite IH. by destruct (Py.strings_of rest).
Qed.

Lemma extract_item_fragment item :
  text_typed item = true ->
  extract_item item = map JStr (spec_fragment item).
Proof.
  destruct item as [|b|n|f|s|items|d]; simpl; try done.
  intros Htext. repeat case_match; simpl; try done.
  - destruct (Py.get_or d "text" (JStr EmptyString)); try done.
    by rewrite str_of_str.
  - by rewrite !append_assoc.
Qed.

Lemma extract_items_fragments items :
  Forall (fun item => text_typed item = true) items ->
  Py.strings_of (flat_map extract_item items)
  = Ok (flat_map spec_fragment items).
Proof.
  induction 1 as [|item items Hitem _ IH]; simpl; [done|].
  rewrite (extract_item_fragment _ Hitem), strings_of_app, IH. done.
Qed.

Lemma block_typed_text_typed item :
  block_typed item = true -> text_typed item = true.
Proof.
  destruct item; simpl; try done.
  intros Htyped. by repeat (apply andb_prop in Htyped as [Htyped ?]).
Qed.

End RenderLemmas.

(* ===================================================================== *)
(** ** Rendering: the claims on the two renderers *)
(* ===================================================================== *)

Section RenderTheorems.
Context {lib : Library}.
Import PyStr.

(** Evaluates the lookups in a literal dict and the [str] of the
    strings found. *)
Ltac eval_lookups :=
  repeat (progress (simpl; unfold Py.get_or, Py.get));
  rewrite ?str_of_str.

Lemma eq_str_true v s : Py.eq_str v s = true -> v = JStr s.
Proof.
  destruct v; simpl; try done. by intros ->%String.eqb_eq.
Qed.

(** C2, as the code has it: a [content] that is neither a string nor a
    list raises nothing: plain-text extraction returns the empty string
    and formatted rendering the empty-message placeholder.  On a block
    list whose blocks are typed as in the data model neither function
    raises, whichever optional fields are missing. *)
Theorem content_type_defaults content items :
  is_str content = false ->
  is_list content = false ->
  Forall (fun item => block_typed item = true) items ->
  (extract_text_content content = Ok EmptyString
   /\ render_message_content content = Ok empty_message_html)
  /\ exists text html,
      extract_text_content (JArr items) = Ok text
      /\ render_message_content (JArr items) = Ok html.
Proof.
  intros Hstr Hlist Htyped. split.
  { by destruct content. }
  destruct (render_items_typed _ Htyped) as [parts Hparts].
  exists (join nl (flat_map spec_fragment items)), (join_parts parts).
  split.
  - unfold extract_text_content, Py.join.
    rewrite extract_items_fragments; [done|].
    eapply Forall_impl; [exact Htyped|]. apply block_typed_text_typed.
  - unfold render_message_content. by rewrite Hparts.
Qed.


(** C7: plain-text extraction returns a string as it is; on a block
    list it joins with line feeds, in block order, the text of a text
    block, the text of a thinking block between [[THINKING]] and
    [[/THINKING]], the name and the indented JSON input of a tool use
    between [[TOOL: name]] and [[/TOOL]], and a bare string as it is;
    any other item gives nothing. *)
Theorem plain_text_fragments items s :
  Forall (fun item => text_typed item = true) items ->
  extract_text_content (JArr items)
  = Ok (join nl (flat_map spec_fragment items))
  /\ extract_text_content (JStr s) = Ok s
  /\ extract_text_content
       (JArr [JObj [("type", JStr "thinking"); ("thinking", JStr "x")]])
     = Ok ("[THINKING]" +:+ nl +:+ "x" +:+ nl +:+ "[/THINKING]")
  /\ extract_text_content
       (JArr [JObj [("type", JStr "text"); ("text", JStr "hi")]])
     = Ok "hi".
Proof.
  intros Htyped. split; [|split; [done|split]].
  - unfold extract_text_content, Py.join.
    by rewrite (extract_items_fragments _ Htyped).
  - unfold extract_text_content, Py.join. by eval_lookups.
  - done.
Qed.

(** C8: the body of a Bash tool use is the dollar sign and the command,
    with the hash sign and the description on a line before it when the
    description is not empty; the unit shows the body escaped, under the
    header of the tool.  For the command [ls -la] described as
    [list files] the body is the two lines [# list files] and
    [$ ls -la]. *)
Theorem bash_tool_body d input :
  Py.eq_str (Py.get_or d "type" (JStr EmptyString)) "tool_use" = true ->
  Py.get_or d "name" (JStr "Unknown") = JStr "Bash" ->
  Py.get_or d "input" (JObj []) = JObj input ->
  let cmd := str (Py.get_or input "command" (JStr EmptyString)) in
  let desc := Py.get_or input "description" (JStr EmptyString) in
  let body :=
    if Py.truthy desc then "# " +:+ str desc +:+ nl +:+ "$ " +:+ cmd
    else "$ " +:+ cmd in
  tool_display "Bash" (JObj input) = Ok body
  /\ render_message_content (JArr [JObj d])
     = Ok (tool_call_html "🔧 Bash" (escape body))
  /\ tool_display "Bash"
       (JObj [("command", JStr "ls -la");
              ("description", JStr "list files")])
     = Ok ("# list files" +:+ nl +:+ "$ ls -la")
  /\ render_message_content
       (JArr [JObj [("type", JStr "tool_use"); ("name", JStr "Bash");
                    ("input",
                     JObj [("command", JStr "ls -la");
                           ("description", JStr "list files")])]])
     = Ok (tool_call_html "🔧 Bash" ("# list files" +:+ nl +:+ "$ ls -la")).
Proof.
  intros Htype Hname Hinput cmd desc body.
  assert (Hdisplay : tool_display "Bash" (JObj input) = Ok body) by done.
  split; [done|split; [|split]].
  - unfold render_message_content, render_items, render_item.
    apply eq_str_true in Htype. rewrite Htype, Hname, Hinput.
    change (Py.eq_str (JStr "tool_use") "text") with false.
    change (Py.eq_str (JStr "tool_use") "thinking") with false.
    change (Py.eq_str (JStr "tool_use") "tool_use") with true.
    change (Py.escape (JStr "Bash")) with (Ok "Bash").
    cbv beta iota. cbn [bind]. rewrite Hdisplay. done.
  - unfold tool_display. by eval_lookups.
  - unfold render_message_content, render_items, render_item, tool_display.
    by eval_lookups.
Qed.

(** C10: in formatted rendering an item of the block list that is not a
    mapping, such as a bare string, gives no fragment: the list renders
    as it does without the item, and a list of such items only renders
    as the empty-message placeholder, while plain-text extraction passes
    the bare string through as it is. *)
Theorem bare_items_render_nothing pre x post items s :
  is_obj x = false ->
  Forall (fun item => is_obj item = false) items ->
  render_message_content (JArr (pre ++ x :: post))
  = render_message_content (JArr (pre ++ post))
  /\ render_message_content (JArr items) = Ok empty_message_html
  /\ render_message_content (JArr [JStr s]) = Ok empty_message_html
  /\ extract_text_content (JArr [JStr s]) = Ok s.
Proof.
  intros Hx Hitems. split; [|split; [|done]].
  - unfold render_message_content.
    rewrite !render_items_app. cbn [render_items].
    rewrite (render_item_not_obj _ Hx). cbn [bind].
    destruct (render_items pre) as [parts|e]; [|done]. cbn [bind].
    by destruct (render_items post).
  - unfold render_message_content.
    by rewrite (render_items_not_obj _ Hitems).
Qed.

End RenderTheorems.

(* ===================================================================== *)
(** ** The catalogue: the claim on get_all_sessions *)
(* ===================================================================== *)

Section CatalogTheorems.
Context {lib : Library}.

Lemma sort_insert_perm x l : Permutation (x :: l) (sort_insert x l).
Proof.
  induction l as [|y l IH]; simpl; [done|].
  destruct (Session.modified x <? Session.modified y)%Z; [|done].
  rewrite <- IH. apply perm_swap.
Qed.

Lemma sort_modified_reverse_perm l :
  Permutation l (sort_modified_reverse l).
Proof.
  induction l as [|x l IH]; simpl; [done|].
  rewrite <- sort_insert_perm. by constructor.
Qed.

Lemma sort_insert_sorted x l :
  StronglySorted newer_or_equal l ->
  StronglySorted newer_or_equal (sort_insert x l).
Proof.
  induction 1 as [|y l Hsorted IH Hall]; simpl.
  { repeat constructor. }
  destruct (Z.ltb_spec (Session.modified x) (Session.modified y)) as [Hlt|Hge].
  - constructor; [done|].
    rewrite <- sort_insert_perm. constructor; [|done].
    unfold newer_or_equal. lia.
  - constructor; [by constructor|].
    constructor; [done|].
    eapply Forall_impl; [exact Hall|].
    unfold newer_or_equal. intros z Hz. lia.
Qed.

Lemma sort_modified_reverse_sorted l :
  StronglySorted newer_or_equal (sort_modified_reverse l).
Proof.
  induction l as [|x l IH]; simpl; [constructor|].
  by apply sort_insert_sorted.
Qed.

(** Insertion keeps [x] ahead of the items of its own time. *)
Lemma sort_insert_stable t x l :
  modified_at t (sort_insert x l) = modified_at t (x :: l).
Proof.
  unfold modified_at.
  induction l as [|y l IH]; simpl; [done|].
  destruct (Z.ltb_spec (Session.modified x) (Session.modified y)) as [Hlt|Hge];
    [|done].
  simpl. rewrite IH. simpl.
  destruct (Z.eqb_spec (Session.modified x) t),
           (Z.eqb_spec (Session.modified y) t); try done.
  lia.
Qed.

Lemma sort_modified_reverse_stable t l :
  modified_at t (sort_modified_reverse l) = modified_at t l.
Proof.
  induction l as [|x l IH]; simpl; [done|].
  rewrite sort_insert_stable. unfold modified_at in *. simpl.
  by rewrite IH.
Qed.

(** C9: the catalogue holds the sessions that were collected, newest
    first, and the sessions of one modification time stand in the order
    in which they were discovered. *)
Theorem catalog_sorted_stable projects :
  let found :=
    match projects with
    | Some entries => collected_sessions entries
    | None => []
    end in
  let catalog := get_all_sessions projects in
  StronglySorted newer_or_equal catalog
  /\ Permutation found catalog
  /\ forall t, modified_at t catalog = modified_at t found.
Proof.
  destruct projects as [entries|]; simpl.
  - split; [apply sort_modified_reverse_sorted|].
    split; [apply sort_modified_reverse_perm|].
    intros t. apply sort_modified_reverse_stable.
  - repeat split; constructor.
Qed.

End CatalogTheorems.

(* ===================================================================== *)
(** ** Worked examples *)
(* ===================================================================== *)

Section Examples.
Import Example PyStr.

Local Ltac evaluate := vm_compute; reflexivity.
Local Ltac all_lines := repeat constructor; evaluate.

(** C1 as the specification words it does not hold: of two summary
    records the second one is returned, not the first. *)
Lemma first_summary_does_not_win :
  exists messages session_info,
    parse_session [summary_A; summary_B] = Ok (messages, session_info)
    /\ head (summary_fields [summary_A; summary_B]) = Some (JStr "A")
    /\ session_info !! "summary" = Some (JStr "B")
    /\ session_info !! "summary"
       <> head (summary_fields [summary_A; summary_B]).
Proof.
  eexists _, _. split; [reflexivity|].
  split; [evaluate|]. split; [evaluate|]. vm_compute. discriminate.
Qed.

(** C1 at a transcript with two summaries around a message. *)
Lemma summary_last_wins_witness :
  Forall (fun line => line_ok line = true) ([summary_A; user_hello] ++ [assistant_hi])
  /\ dict_of summary_B
     = Some [("type", JStr "summary"); ("summary", JStr "B")]
  /\ Forall (fun line => line_is_summary line = false) [assistant_hi]
  /\ exists messages session_info session_info',
      parse_session ([summary_A; user_hello] ++ summary_B :: [assistant_hi])
      = Ok (messages, session_info)
      /\ parse_session ([summary_A; user_hello] ++ [assistant_hi])
         = Ok (messages, session_info')
      /\ session_info !! "summary" = Some (JStr "B").
Proof.
  split; [all_lines|]. split; [evaluate|]. split; [all_lines|].
  apply (summary_last_wins [summary_A; user_hello] summary_B [assistant_hi]
           [("type", JStr "summary"); ("summary", JStr "B")]).
  - all_lines.
  - evaluate.
  - evaluate.
  - all_lines.
Defined.

(** C3 at a transcript whose second message carries other values. *)
Lemma session_metadata_first_wins_witness :
  Forall (fun line => line_ok line = true)
    ([summary_A; not_json] ++ user_hello :: [summary_B; assistant_hi])
  /\ Forall (fun line => line_emits line = false) [summary_A; not_json]
  /\ line_emits user_hello = true
  /\ exists messages session_info,
      parse_session
        ([summary_A; not_json] ++ user_hello :: [summary_B; assistant_hi])
      = Ok (messages, session_info)
      /\ head messages
         = Some (Message.make (JStr "user") (JStr "hello")
                   (JStr EmptyString) (JStr "u1"))
      /\ session_info !! "sessionId" = Some (JStr "s1")
      /\ session_info !! "cwd" = Some (JStr "/a")
      /\ session_info !! "version" = Some (JStr "1.0").
Proof.
  split; [all_lines|]. split; [all_lines|]. split; [evaluate|].
  apply (session_metadata_first_wins [summary_A; not_json] user_hello
           [summary_B; assistant_hi]
           [("type", JStr "user"); ("sessionId", JStr "s1");
            ("cwd", JStr "/a"); ("version", JStr "1.0");
            ("uuid", JStr "u1");
            ("message",
             JObj [("role", JStr "user"); ("content", JStr "hello")])]).
  - all_lines.
  - all_lines.
  - evaluate.
  - evaluate.
  - evaluate.
Defined.

(** C4 as the specification words it does not hold: a summary record
    whose [message] has the role [user], and a record of type [user]
    without a [message], both resolve to the role [user] and yield no
    Message. *)
Lemma resolved_role_count_differs :
  Forall (fun line => line_ok line = true)
    [summary_with_message; user_without_message]
  /\ (exists session_info,
        parse_session [summary_with_message; user_without_message]
        = Ok ([], session_info))
  /\ count_by_resolved_role [summary_with_message; user_without_message] = 2
  /\ parse_session [user_without_message] = Ok ([], ∅)
  /\ count_by_resolved_role [user_without_message] = 1.
Proof.
  split; [all_lines|]. split; [eexists; reflexivity|].
  split; [evaluate|]. split; [reflexivity|evaluate].
Qed.

(** C4 at a transcript with every kind of line. *)
Lemma messages_in_line_order_witness :
  Forall (fun line => line_ok line = true)
    [summary_A; user_hello; not_json; user_without_message; assistant_hi;
     user_hello]
  /\ exists session_info,
      parse_session
        [summary_A; user_hello; not_json; user_without_message;
         assistant_hi; user_hello]
      = Ok ([Message.make (JStr "user") (JStr "hello")
               (JStr EmptyString) (JStr "u1");
             Message.make (JStr "assistant") (JStr "hi")
               (JStr EmptyString) (JStr "u2");
             Message.make (JStr "user") (JStr "hello")
               (JStr EmptyString) (JStr "u1")],
            session_info).
Proof.
  split; [all_lines|].
  destruct (messages_in_line_order
              [summary_A; user_hello; not_json; user_without_message;
               assistant_hi; user_hello])
    as [session_info Hparse]; [all_lines|].
  exists session_info. rewrite Hparse. evaluate.
Defined.



(** C2 as the specification words it does not hold: a number, a null
    and a mapping as [content] raise nothing in either function. *)
Lemma content_type_violation_not_raised :
  render_message_content (JInt 5) = Ok empty_message_html
  /\ extract_text_content (JInt 5) = Ok EmptyString
  /\ render_message_content JNull = Ok empty_message_html
  /\ extract_text_content JNull = Ok EmptyString
  /\ render_message_content (JObj [("type", JStr "text")])
     = Ok empty_message_html
  /\ extract_text_content (JObj [("type", JStr "text")]) = Ok EmptyString.
Proof. repeat split. Qed.

(** C2 at a number and at blocks without their optional fields. *)
Lemma content_type_defaults_witness :
  is_str (JInt 5) = false
  /\ is_list (JInt 5) = false
  /\ Forall (fun item => block_typed item = true) bare_blocks
  /\ (extract_text_content (JInt 5) = Ok EmptyString
      /\ render_message_content (JInt 5) = Ok empty_message_html)
  /\ exists text html,
      extract_text_content (JArr bare_blocks) = Ok text
      /\ render_message_content (JArr bare_blocks) = Ok html.
Proof.
  split; [reflexivity|]. split; [reflexivity|]. split; [all_lines|].
  apply (content_type_defaults (JInt 5) bare_blocks).
  - reflexivity.
  - reflexivity.
  - all_lines.
Defined.


(** C7 at a list with each kind of item. *)
Lemma plain_text_fragments_witness :
  Forall (fun item => text_typed item = true)
    [text_hi; thinking_x; bash_echo; JStr "raw"; JInt 7]
  /\ extract_text_content
       (JArr [text_hi; thinking_x; bash_echo; JStr "raw"; JInt 7])
     = Ok (join nl
             ["hi"; "[THINKING]"; "x"; "[/THINKING]"; "[TOOL: Bash]";
              "{"; "  " +:+ quoted "command" +:+ ": " +:+ quoted "echo <hi>";
              "}"; "[/TOOL]"; "raw"]).
Proof.
  split; [all_lines|].
  destruct (plain_text_fragments
              [text_hi; thinking_x; bash_echo; JStr "raw"; JInt 7]
              EmptyString)
    as (Hjoin & _); [all_lines|].
  rewrite Hjoin. evaluate.
Defined.

(** C8 at a command without a description. *)
Lemma bash_tool_body_witness :
  Py.eq_str
    (Py.get_or
       [("type", JStr "tool_use"); ("name", JStr "Bash");
        ("input", JObj [("command", JStr "echo <hi>")])]
       "type" (JStr EmptyString)) "tool_use" = true
  /\ Py.get_or
       [("type", JStr "tool_use"); ("name", JStr "Bash");
        ("input", JObj [("command", JStr "echo <hi>")])]
       "name" (JStr "Unknown") = JStr "Bash"
  /\ Py.get_or
       [("type", JStr "tool_use"); ("name", JStr "Bash");
        ("input", JObj [("command", JStr "echo <hi>")])]
       "input" (JObj []) = JObj [("command", JStr "echo <hi>")]
  /\ render_message_content (JArr [bash_echo])
     = Ok (tool_call_html "🔧 Bash" "$ echo &lt;hi&gt;").
Proof.
  split; [evaluate|]. split; [evaluate|]. split; [evaluate|].
  destruct (bash_tool_body
              [("type", JStr "tool_use"); ("name", JStr "Bash");
               ("input", JObj [("command", JStr "echo <hi>")])]
              [("command", JStr "echo <hi>")])
    as (_ & Hrender & _); [evaluate|evaluate|evaluate|].
  unfold bash_echo. rewrite Hrender. evaluate.
Defined.

(** C10 at a bare string after a text block. *)
Lemma bare_items_render_nothing_witness :
  is_obj (JStr "raw") = false
  /\ Forall (fun item => is_obj item = false) [JStr "a"; JInt 1; JNull]
  /\ render_message_content (JArr ([text_hi] ++ JStr "raw" :: []))
     = render_message_content (JArr ([text_hi] ++ []))
  /\ render_message_content (JArr [JStr "a"; JInt 1; JNull])
     = Ok empty_message_html
  /\ render_message_content (JArr [JStr "raw"]) = Ok empty_message_html
  /\ extract_text_content (JArr [JStr "raw"]) = Ok "raw".
Proof.
  split; [reflexivity|]. split; [all_lines|].
  apply (bare_items_render_nothing [text_hi] (JStr "raw") []
           [JStr "a"; JInt 1; JNull] "raw").
  - reflexivity.
  - all_lines.
Defined.

End Examples.


(* ===================================================================== *)
(** ** More on parse_session *)
(* ===================================================================== *)

Section ParseExtras.
Context {lib : Library}.

(** A line that raises nothing does what [step] says. *)
Lemma parse_line_Ok_step st line st' :
  parse_line st line = Ok st' -> st' = step st line.
Proof.
  unfold step, dict_of, parse_line, record_of.
  destruct st as [messages session_info].
  destruct (PyStr.is_empty (PyStr.strip line)); [by intros [= <-]|].
  destruct (json_loads (PyStr.strip line)) as [data| |e];
    [|by intros [= <-]|discriminate].
  destruct data as [|b|n|f|s|items|d]; try discriminate.
  simpl bind. unfold emits, is_summary, is_snapshot.
  destruct (Py.eq_str (Py.get d "type") "summary"); [by intros [= <-]|].
  destruct (Py.eq_str (Py.get d "type") "file-history-snapshot");
    [by intros [= <-]|].
  simpl negb. simpl andb. unfold to_message, resolved_role, message_of.
  destruct (Py.get_or d "message" (JObj [])) as [|b|n|f|s|items|m];
    try (destruct (Py.truthy _); simpl; [discriminate | by intros [= <-]]).
  destruct (Py.truthy (JObj m)); [|by intros [= <-]]. simpl.
  destruct (is_chat_role _) eqn:Hrole; unfold is_chat_role in Hrole;
    rewrite Hrole; [|by intros [= <-]].
  by destruct (Py.truthy (info_get session_info "sessionId")); intros [= <-].
Qed.

Lemma parse_lines_Ok_steps lines st st' :
  parse_lines st lines = Ok st' -> st' = fold_left step lines st.
Proof.
  revert st. induction lines as [|line lines IH]; intros st; simpl.
  { by intros [= <-]. }
  destruct (parse_line st line) as [st1|e] eqn:Hline; [|discriminate].
  simpl. rewrite (parse_line_Ok_step _ _ _ Hline). apply IH.
Qed.

Lemma chat_role_cases role :
  is_chat_role role = true -> role = JStr "user" \/ role = JStr "assistant".
Proof.
  unfold is_chat_role. intros [H|H]%orb_prop.
  - left. destruct role; simpl in H; try done. by apply String.eqb_eq in H as ->.
  - right. destruct role; simpl in H; try done. by apply String.eqb_eq in H as ->.
Qed.

Lemma emits_chat_role d : emits d = true -> is_chat_role (resolved_role d) = true.
Proof. unfold emits. by intros [_ ?]%andb_prop. Qed.

(** Lines that emit nothing leave the Messages and every key but
    [summary] as they are. *)
Lemma steps_quiet lines messages session_info :
  Forall (fun line => line_emits line = false) lines ->
  exists session_info',
    fold_left step lines (messages, session_info) = (messages, session_info')
    /\ forall k, k <> "summary" -> session_info' !! k = session_info !! k.
Proof.
  intros Hno. revert session_info.
  induction Hno as [|line lines Hline _ IH]; intros session_info; simpl.
  { by exists session_info. }
  unfold step at 2. unfold line_emits in Hline.
  destruct (dict_of line) as [d|]; [|apply IH].
  destruct (is_summary d).
  - destruct (IH (<["summary" := Py.get_or d "summary" (JStr EmptyString)]>
                    session_info)) as (info' & Hrun & Hkeys).
    exists info'. split; [done|]. intros k Hk.
    rewrite Hkeys by done. by rewrite lookup_insert_ne.
  - rewrite Hline. apply IH.
Qed.

(** While the Messages carry no [sessionId], none is captured. *)
Lemma steps_no_session_id lines st :
  Forall (fun line => emits_without_session_id line = true) lines ->
  Py.truthy (info_get st.2 "sessionId") = false ->
  Py.truthy (info_get (fold_left step lines st).2 "sessionId") = false.
Proof.
  intros Hlines. revert st.
  induction Hlines as [|line lines Hline _ IH]; intros [messages session_info] Hst;
    simpl; [done|].
  apply IH. unfold step. unfold emits_without_session_id in Hline.
  destruct (dict_of line) as [d|]; [|done].
  destruct (is_summary d).
  { simpl. unfold info_get in *. by rewrite lookup_insert_ne. }
  destruct (emits d); [|done]. simpl in Hline, Hst |- *. rewrite Hst.
  apply negb_true_iff in Hline. unfold info_get.
  by rewrite lookup_insert_ne, lookup_insert_ne, lookup_insert_eq.
Qed.

Lemma step_info_invariant st line :
  info_invariant st -> info_invariant (step st line).
Proof.
  destruct st as [messages session_info]. unfold step.
  destruct (dict_of line) as [d|]; [|done].
  intros (Hkeys & Hnone & Hcwd & Hversion). simpl in *.
  destruct (is_summary d).
  { split; [|split; [|split]]; simpl; rewrite ?lookup_insert_ne by done;
      try done.
    intros k [v Hv]. destruct (decide (k = "summary")) as [->|Hk].
    - by left.
    - rewrite lookup_insert_ne in Hv by done. by apply Hkeys. }
  destruct (emits d); [|done].
  destruct (Py.truthy (info_get session_info "sessionId")) eqn:Hsid.
  { split; [|split; [|split]]; simpl; try done.
    split.
    - intros Hno. unfold info_get in Hsid. by rewrite Hno in Hsid.
    - intros Hnil. by destruct messages. }
  split; [|split; [|split]]; simpl.
  - intros k [v Hv].
    destruct (decide (k = "version")) as [->|?]; [simpl; tauto|].
    destruct (decide (k = "cwd")) as [->|?]; [simpl; tauto|].
    destruct (decide (k = "sessionId")) as [->|?]; [simpl; tauto|].
    rewrite !lookup_insert_ne in Hv by done. by apply Hkeys.
  - rewrite lookup_insert_ne, lookup_insert_ne, lookup_insert_eq by done.
    split; [done|]. intros Hnil. by destruct messages.
  - rewrite (lookup_insert_ne _ "version" "cwd"), lookup_insert_eq by done.
    rewrite lookup_insert_ne, lookup_insert_ne, lookup_insert_eq by done.
    done.
  - rewrite lookup_insert_eq.
    rewrite lookup_insert_ne, lookup_insert_ne, lookup_insert_eq by done.
    done.
Qed.

Lemma steps_info_invariant lines st :
  info_invariant st -> info_invariant (fold_left step lines st).
Proof.
  revert st. induction lines as [|line lines IH]; intros st Hst; simpl; [done|].
  by apply IH, step_info_invariant.
Qed.

Lemma info_invariant_start : info_invariant ([], ∅).
Proof.
  split; [|split; [|split]]; simpl; rewrite ?lookup_empty; try done.
  intros k [v Hv]. by rewrite lookup_empty in Hv.
Qed.




(** X1: every Message that normalisation returns has the role [user] or
    the role [assistant]. *)
Theorem messages_have_chat_roles lines messages session_info :
  parse_session lines = Ok (messages, session_info) ->
  Forall (fun m => Message.role m = JStr "user"
                   \/ Message.role m = JStr "assistant") messages.
Proof.
  unfold parse_session. intros Hparse%parse_lines_Ok_steps.
  assert (Hmessages : messages = (fold_left step lines ([], ∅)).1)
    by by rewrite <- Hparse.
  rewrite steps_messages in Hmessages. subst messages. simpl.
  apply List.Forall_forall. intros m Hm.
  apply in_map_iff in Hm as (d & <- & Hd).
  apply filter_In in Hd as [_ Hd].
  apply chat_role_cases, emits_chat_role, Hd.
Qed.

(** X2: lines appended to a transcript leave the Messages already
    returned in place and add those of the new records behind them; once
    a [sessionId] that is not empty was captured, they change no key of
    the metadata but the summary. *)
Theorem appended_lines_keep_messages
  lines more messages session_info messages' session_info' :
  parse_session lines = Ok (messages, session_info) ->
  parse_session (lines ++ more) = Ok (messages', session_info') ->
  messages' = messages ++ map to_message (List.filter emits (records more))
  /\ (Py.truthy (info_get session_info "sessionId") = true ->
      forall k, k <> "summary" -> session_info' !! k = session_info !! k).
Proof.
  unfold parse_session. intros Hold Hnew.
  rewrite parse_lines_app, Hold in Hnew. cbn [bind] in Hnew.
  apply parse_lines_Ok_steps in Hnew. split.
  - assert (Hfst : messages' = (fold_left step more (messages, session_info)).1)
      by by rewrite <- Hnew.
    by rewrite steps_messages in Hfst.
  - intros Hcaptured k Hk.
    assert (Hsnd : session_info'
                   = (fold_left step more (messages, session_info)).2)
      by by rewrite <- Hnew.
    rewrite Hsnd. by apply (steps_captured_kept more (messages, session_info)).
Qed.

(** X3: the metadata that normalisation returns holds no key but
    [summary], [sessionId], [cwd] and [version]; [sessionId] is set as
    soon as there is one Message, and [cwd] and [version] are set when
    [sessionId] is. *)
Theorem session_info_keys lines messages session_info :
  parse_session lines = Ok (messages, session_info) ->
  (forall k, is_Some (session_info !! k) -> In k info_keys)
  /\ (session_info !! "sessionId" = None <-> messages = [])
  /\ (is_Some (session_info !! "cwd")
      <-> is_Some (session_info !! "sessionId"))
  /\ (is_Some (session_info !! "version")
      <-> is_Some (session_info !! "sessionId")).
Proof.
  unfold parse_session. intros Hparse%parse_lines_Ok_steps.
  change (info_invariant (messages, session_info)). rewrite Hparse.
  apply steps_info_invariant, info_invariant_start.
Qed.


(** X5: the [sessionId], [cwd] and [version] that normalisation returns
    are those of the first record that yields a Message and carries a
    [sessionId] that is not empty, also when Messages without one come
    before it. *)
Theorem first_session_id_wins pre l post d :
  Forall (fun line => line_ok line = true) (pre ++ l :: post) ->
  Forall (fun line => emits_without_session_id line = true) pre ->
  dict_of l = Some d ->
  emits d = true ->
  Py.truthy (Py.get_or d "sessionId" (JStr EmptyString)) = true ->
  exists messages session_info,
    parse_session (pre ++ l :: post) = Ok (messages, session_info)
    /\ session_info !! "sessionId"
       = Some (Py.get_or d "sessionId" (JStr EmptyString))
    /\ session_info !! "cwd" = Some (Py.get_or d "cwd" (JStr EmptyString))
    /\ session_info !! "version"
       = Some (Py.get_or d "version" (JStr EmptyString)).
Proof.
  intros Hok Hpre Hd Hemit Hsid.
  unfold parse_session. rewrite (parse_lines_steps _ _ Hok).
  rewrite fold_left_app. cbn [fold_left].
  pose proof (steps_no_session_id pre ([], ∅) Hpre) as Hnone.
  destruct (fold_left step pre ([], ∅)) as [messages1 info1].
  simpl in Hnone. specialize (Hnone eq_refl).
  assert (Hsum : is_summary d = false).
  { destruct (is_summary d) eqn:E; [|done].
    by rewrite (is_summary_not_emits _ E) in Hemit. }
  assert (Hstep : step (messages1, info1) l
                  = (messages1 ++ [to_message d],
                     <["version" := Py.get_or d "version" (JStr EmptyString)]>
                       (<["cwd" := Py.get_or d "cwd" (JStr EmptyString)]>
                          (<["sessionId" :=
                               Py.get_or d "sessionId" (JStr EmptyString)]>
                             info1)))).
  { unfold step. by rewrite Hd, Hsum, Hemit, Hnone. }
  rewrite Hstep. set (info2 := <["version" := _]> _).
  assert (Hcap : Py.truthy (info_get info2 "sessionId") = true).
  { unfold info_get, info2.
    by rewrite lookup_insert_ne, lookup_insert_ne, lookup_insert_eq. }
  eexists _, _. split; [by rewrite <- surjective_pairing|].
  rewrite !steps_captured_kept by done. unfold info2. cbn [snd].
  repeat split.
  - by rewrite lookup_insert_ne, lookup_insert_ne, lookup_insert_eq.
  - by rewrite lookup_insert_ne, lookup_insert_eq.
  - by rewrite lookup_insert_eq.
Qed.

(** X6: while no record that yields a Message carries a [sessionId],
    every Message replaces the metadata: what is returned are the
    [sessionId], [cwd] and [version] of the last one, each the empty
    string where the record has none. *)
Theorem last_message_wins_without_session_id pre l post d :
  Forall (fun line => line_ok line = true) (pre ++ l :: post) ->
  Forall (fun line => emits_without_session_id line = true) (pre ++ [l]) ->
  dict_of l = Some d ->
  emits d = true ->
  Forall (fun line => line_emits line = false) post ->
  exists messages session_info,
    parse_session (pre ++ l :: post) = Ok (messages, session_info)
    /\ session_info !! "sessionId"
       = Some (Py.get_or d "sessionId" (JStr EmptyString))
    /\ session_info !! "cwd" = Some (Py.get_or d "cwd" (JStr EmptyString))
    /\ session_info !! "version"
       = Some (Py.get_or d "version" (JStr EmptyString)).
Proof.
  intros Hok Hbare Hd Hemit Hpost.
  apply Forall_app in Hbare as [Hpre _].
  unfold parse_session. rewrite (parse_lines_steps _ _ Hok).
  rewrite fold_left_app. cbn [fold_left].
  pose proof (steps_no_session_id pre ([], ∅) Hpre) as Hnone.
  destruct (fold_left step pre ([], ∅)) as [messages1 info1].
  simpl in Hnone. specialize (Hnone eq_refl).
  assert (Hsum : is_summary d = false).
  { destruct (is_summary d) eqn:E; [|done].
    by rewrite (is_summary_not_emits _ E) in Hemit. }
  assert (Hstep : step (messages1, info1) l
                  = (messages1 ++ [to_message d],
                     <["version" := Py.get_or d "version" (JStr EmptyString)]>
                       (<["cwd" := Py.get_or d "cwd" (JStr EmptyString)]>
                          (<["sessionId" :=
                               Py.get_or d "sessionId" (JStr EmptyString)]>
                             info1)))).
  { unfold step. by rewrite Hd, Hsum, Hemit, Hnone. }
  rewrite Hstep. set (info2 := <["version" := _]> _).
  destruct (steps_quiet post (messages1 ++ [to_message d]) info2 Hpost)
    as (info3 & -> & Hkeys).
  eexists _, _. split; [done|].
  rewrite !Hkeys by done. unfold info2.
  repeat split.
  - by rewrite lookup_insert_ne, lookup_insert_ne, lookup_insert_eq.
  - by rewrite lookup_insert_ne, lookup_insert_eq.
  - by rewrite lookup_insert_eq.
Qed.

End ParseExtras.

(* ===================================================================== *)
(** ** More on the two renderers *)
(* ===================================================================== *)

Section RenderExtras.
Context {lib : Library}.
Import PyStr.
Local Arguments String.append : simpl nomatch.

Lemma mem_char_append c s1 s2 :
  PyOps.mem_char c (s1 +:+ s2) = PyOps.mem_char c s1 || PyOps.mem_char c s2.
Proof.
  induction s1 as [|a s1 IH]; simpl; [done|]. by rewrite IH, orb_assoc.
Qed.

Lemma markup_free_append s1 s2 :
  markup_free (s1 +:+ s2) = markup_free s1 && markup_free s2.
Proof.
  unfold markup_free. rewrite !mem_char_append.
  repeat (destruct (PyOps.mem_char _ _)); done.
Qed.

Lemma markup_free_escape_char c : markup_free (escape_char c) = true.
Proof.
  unfold escape_char, markup_free.
  destruct (Ascii.eqb c "&"); [done|].
  destruct (Ascii.eqb c "<") eqn:Hlt; [done|].
  destruct (Ascii.eqb c ">") eqn:Hgt; [done|].
  destruct (Ascii.eqb c "034") eqn:Hdq; [done|].
  destruct (Ascii.eqb c "'") eqn:Hsq; [done|].
  simpl. by rewrite Hlt, Hgt, Hdq, Hsq.
Qed.

Lemma markup_free_escape s : markup_free (escape s) = true.
Proof.
  induction s as [|c s IH]; simpl; [done|].
  by rewrite markup_free_append, markup_free_escape_char, IH.
Qed.

Lemma mem_char_take c n s :
  PyOps.mem_char c s = false -> PyOps.mem_char c (take n s) = false.
Proof.
  revert s. induction n as [|n IH]; intros [|a s]; simpl; try done.
  intros [-> Hs]%orb_false_elim. by rewrite IH.
Qed.

Lemma markup_free_take n s :
  markup_free s = true -> markup_free (take n s) = true.
Proof.
  unfold markup_free. intros H.
  repeat (apply andb_prop in H as [H ?]).
  repeat (match goal with
          | Hc : negb _ = true |- _ => apply negb_true_iff in Hc
          end).
  by rewrite !mem_char_take.
Qed.

Lemma thinking_body_markup_free thinking body :
  thinking_body thinking = Ok body -> markup_free body = true.
Proof.
  unfold thinking_body. destruct thinking; try discriminate.
  cbn [bind Py.escape Py.len].
  assert (Hshown : markup_free (take 1000 (escape s)) = true)
    by apply markup_free_take, markup_free_escape.
  set (shown := take 1000 (escape s)) in *.
  destruct (1000 <? String.length s); intros [= <-].
  - by rewrite markup_free_append, Hshown.
  - done.
Qed.

Lemma tool_display_raise_kind tool_name tool_input e :
  tool_display tool_name tool_input = Raise e -> e = AttributeError.
Proof.
  unfold tool_display.
  repeat case_match; try discriminate;
    destruct tool_input; simpl; try discriminate; by intros [= <-].
Qed.

Lemma render_item_raise_kind item e :
  render_item item = Raise e -> e = AttributeError.
Proof.
  destruct item as [|b|n|f|s|items|d]; try discriminate. simpl.
  repeat case_match; try discriminate.
  - destruct (Py.get_or d "text" _); simpl; try discriminate; by intros [= <-].
  - unfold thinking_body.
    destruct (Py.get_or d "thinking" _); simpl; try discriminate;
      by intros [= <-].
  - destruct (Py.get_or d "name" _); simpl; try (by intros [= <-]).
    destruct (tool_display _ _) as [display|e'] eqn:Hdisplay; simpl;
      [discriminate|].
    intros [= <-]. by apply tool_display_raise_kind in Hdisplay.
Qed.

Lemma render_items_raise_kind items e :
  render_items items = Raise e -> e = AttributeError.
Proof.
  induction items as [|item items IH]; simpl; [discriminate|].
  destruct (render_item item) as [parts|e'] eqn:Hitem; simpl.
  - destruct (render_items items) as [more|e'']; simpl; [discriminate|].
    intros [= <-]. by apply IH.
  - intros [= <-]. by apply render_item_raise_kind in Hitem.
Qed.

(** A block that raises makes the whole list raise. *)
Lemma render_items_raise items item e :
  In item items ->
  render_item item = Raise e ->
  render_items items = Raise AttributeError.
Proof.
  induction items as [|x items IH]; simpl; [done|].
  intros [->|Hin] Hraise.
  - rewrite Hraise. simpl. f_equal. by apply render_item_raise_kind in Hraise.
  - destruct (render_item x) as [parts|e'] eqn:Hx; simpl.
    + by rewrite (IH Hin Hraise).
    + f_equal. by apply render_item_raise_kind in Hx.
Qed.

Lemma strings_of_raise xs x :
  In x xs -> is_str x = false -> Py.strings_of xs = Raise TypeError.
Proof.
  induction xs as [|y xs IH]; simpl; [done|].
  intros [->|Hin] Hx.
  - by destruct x.
  - destruct y; try done. by rewrite (IH Hin Hx).
Qed.

Lemma render_items_unknown items :
  Forall (fun item => unknown_block item = true) items ->
  render_items items = Ok [].
Proof.
  induction 1 as [|item items Hitem _ IH]; simpl; [done|].
  rewrite IH.
  destruct item as [|b|n|f|s|its|d]; try done.
  simpl in Hitem |- *. apply negb_true_iff in Hitem.
  repeat (apply orb_false_elim in Hitem as [Hitem ?]).
  by repeat (match goal with H : Py.eq_str _ _ = false |- _ => rewrite H; clear H end).
Qed.

(** X7: a block list that holds nothing the renderer knows, no text, no
    thinking, no tool use and no tool result, renders as the one
    empty-message placeholder; so does the empty list. *)
Theorem unknown_blocks_render_placeholder items :
  Forall (fun item => unknown_block item = true) items ->
  render_message_content (JArr items) = Ok empty_message_html
  /\ render_message_content (JArr []) = Ok empty_message_html.
Proof.
  intros Hitems. split; [|done].
  unfold render_message_content. by rewrite (render_items_unknown _ Hitems).
Qed.

(** X8: a tool use whose [input] is no mapping raises [AttributeError]
    when the tool is one of Bash, Read, Write, Edit, Grep, Glob and Task;
    for any other tool it renders, showing the first 500 characters of
    the JSON of the input, with no marker. *)
Theorem tool_input_not_a_mapping d tool_name input :
  Py.eq_str (Py.get_or d "type" (JStr EmptyString)) "tool_use" = true ->
  Py.get_or d "name" (JStr "Unknown") = JStr tool_name ->
  Py.get_or d "input" (JObj []) = input ->
  is_obj input = false ->
  render_message_content (JArr [JObj d])
  = if known_tool (escape tool_name) then Raise AttributeError
    else Ok (tool_call_html ("🔧 " +:+ escape tool_name)
               (escape (take 500 (json_dumps input)))).
Proof.
  intros Htype Hname Hinput Hobj.
  unfold render_message_content, render_items, render_item.
  apply eq_str_true in Htype. rewrite Htype, Hname, Hinput.
  change (Py.eq_str (JStr "tool_use") "text") with false.
  change (Py.eq_str (JStr "tool_use") "thinking") with false.
  change (Py.eq_str (JStr "tool_use") "tool_use") with true.
  cbv beta iota. simpl Py.escape. cbn [bind].
  unfold tool_display, known_tool. cbn [existsb].
  repeat (destruct (String.eqb (escape tool_name) _); simpl;
          [by destruct input|]).
  done.
Qed.

(** X9: in the unit of a thinking block, of a tool use and of a tool
    result, nothing of the block reaches the page unescaped: what fills
    the unit holds no angle bracket and no quote. *)
Theorem units_are_escaped d parts :
  Py.eq_str (Py.get_or d "type" (JStr EmptyString)) "text" = false ->
  render_item (JObj d) = Ok parts ->
  Forall escaped_unit parts.
Proof.
  intros Htext. unfold render_item. rewrite Htext.
  repeat case_match; try (intros [= <-]; by constructor).
  - destruct (thinking_body _) as [body|e] eqn:Hbody; simpl; [|discriminate].
    intros [= <-]. constructor; [|constructor].
    left. exists body. split; [done|]. by apply thinking_body_markup_free in Hbody.
  - destruct (Py.escape _) as [tool_name|e] eqn:Hname; simpl; [|discriminate].
    destruct (tool_display _ _) as [display|e]; simpl; [|discriminate].
    intros [= <-]. constructor; [|constructor].
    right. eexists _, _. split; [done|].
    split; [|apply markup_free_escape].
    change (markup_free ("🔧 " +:+ tool_name) = true).
    rewrite markup_free_append.
    destruct (Py.get_or d "name" _); try discriminate Hname.
    injection Hname as <-. by rewrite markup_free_escape.
  - intros [= <-]. constructor; [|constructor].
    right. eexists _, _. split; [done|]. split; [done|].
    apply markup_free_escape.
Qed.

(** X10: a text block whose [text] is no string, wherever it stands in
    the list, makes plain-text extraction raise [TypeError] and formatted
    rendering raise [AttributeError]. *)
Theorem text_not_a_string_raises items item :
  In item items ->
  ill_typed_text item = true ->
  extract_text_content (JArr items) = Raise TypeError
  /\ render_message_content (JArr items) = Raise AttributeError.
Proof.
  intros Hin Hitem.
  destruct item as [|b|n|f|s|its|d]; try discriminate Hitem.
  simpl in Hitem. apply andb_prop in Hitem as [Htype Htext].
  apply negb_true_iff in Htext. split.
  - unfold extract_text_content, Py.join.
    rewrite (strings_of_raise _ (Py.get_or d "text" (JStr EmptyString)));
      [done| |done].
    apply in_flat_map. exists (JObj d). split; [done|].
    apply eq_str_true in Htype. simpl. unfold Py.get.
    assert (Hget : Py.get_or d "type" JNull = JStr "text").
    { unfold Py.get_or in *. by destruct (Py.assoc "type" d). }
    rewrite Hget. simpl. by left.
  - unfold render_message_content.
    assert (Hraise : render_item (JObj d) = Raise AttributeError).
    { unfold render_item. rewrite Htype.
      by destruct (Py.get_or d "text" (JStr EmptyString)). }
    by rewrite (render_items_raise _ _ _ Hin Hraise).
Qed.

Lemma escape_append s1 s2 : escape (s1 +:+ s2) = escape s1 +:+ escape s2.
Proof.
  induction s1 as [|c s1 IH]; simpl; [done|].
  by rewrite IH, append_assoc.
Qed.

(** X23: the unit of a tool result shows the escape of the first 1000
    characters of [str(content)], cut before the escaping so that no
    entity is cut, and the marker behind it when [str(content)] is longer
    than 1000 characters. *)
Theorem tool_result_is_truncated d :
  Py.eq_str (Py.get_or d "type" (JStr EmptyString)) "tool_result" = true ->
  let text := str (Py.get_or d "content" (JStr EmptyString)) in
  let shown := take 1000 text in
  render_message_content (JArr [JObj d])
  = Ok (tool_call_html "📤 Tool Result"
          (if 1000 <? String.length text
           then escape shown +:+ truncated_marker
           else escape shown))
  /\ String.length shown <= 1000
  /\ is_prefix shown text.
Proof.
  intros Htype text shown. split; [|split].
  - unfold render_message_content, render_items, render_item.
    apply eq_str_true in Htype. rewrite Htype.
    change (Py.eq_str (JStr "tool_result") "text") with false.
    change (Py.eq_str (JStr "tool_result") "thinking") with false.
    change (Py.eq_str (JStr "tool_result") "tool_use") with false.
    change (Py.eq_str (JStr "tool_result") "tool_result") with true.
    cbv beta iota. cbn [bind app join_parts join].
    unfold tool_result_body. fold text. fold shown.
    destruct (1000 <? String.length text); [|done].
    by rewrite escape_append.
  - apply take_length.
  - unfold shown. generalize 1000. intros n. revert n.
    induction text as [|c text IH]; intros [|n]; simpl;
      try apply is_prefix_nil.
    apply is_prefix_cons, IH.
Qed.

(** X24: for a tool other than Bash, Read, Write, Edit, Grep, Glob and
    Task the body is the first 500 characters of the indented JSON of the
    input, whatever the input is, and no marker tells when the JSON was
    longer. *)
Theorem generic_tool_body d tool_name :
  Py.eq_str (Py.get_or d "type" (JStr EmptyString)) "tool_use" = true ->
  Py.get_or d "name" (JStr "Unknown") = JStr tool_name ->
  known_tool (escape tool_name) = false ->
  let body := take 500 (json_dumps (Py.get_or d "input" (JObj []))) in
  render_message_content (JArr [JObj d])
  = Ok (tool_call_html ("🔧 " +:+ escape tool_name) (escape body))
  /\ String.length body <= 500.
Proof.
  intros Htype Hname Hknown body. split; [|apply take_length].
  unfold render_message_content, render_items, render_item.
  apply eq_str_true in Htype. rewrite Htype, Hname.
  change (Py.eq_str (JStr "tool_use") "text") with false.
  change (Py.eq_str (JStr "tool_use") "thinking") with false.
  change (Py.eq_str (JStr "tool_use") "tool_use") with true.
  cbv beta iota. simpl Py.escape. cbn [bind].
  unfold tool_display. unfold known_tool in Hknown. cbn [existsb] in Hknown.
  repeat (apply orb_false_elim in Hknown as [? Hknown]).
  repeat (match goal with
          | H : String.eqb (escape tool_name) _ = false |- _ =>
              rewrite H; clear H
          end).
  done.
Qed.

End RenderExtras.

(* ===================================================================== *)
(** ** More on get_all_sessions *)
(* ===================================================================== *)

Section CatalogExtras.
Context {lib : Library}.
Local Arguments String.append : simpl nomatch.

Lemma in_sort_modified_reverse s l :
  In s (sort_modified_reverse l) <-> In s l.
Proof.
  split; apply Permutation_in;
    [symmetry|]; apply sort_modified_reverse_perm.
Qed.

Lemma in_collected_sessions s entries :
  In s (collected_sessions entries) <->
  exists p f,
    In p entries /\ is_dir p = true /\ In f (jsonl_files p)
    /\ In s (file_sessions (PyStr.replace_char "-" "/" (name p)) f).
Proof.
  unfold collected_sessions. rewrite in_flat_map. split.
  - intros (p & Hp & Hs). unfold project_sessions in Hs.
    destruct (is_dir p) eqn:Hdir; [|done].
    apply in_flat_map in Hs as (f & Hf & Hs). by exists p, f.
  - intros (p & f & Hp & Hdir & Hf & Hs). exists p. split; [done|].
    unfold project_sessions. rewrite Hdir. apply in_flat_map. by exists f.
Qed.

Lemma in_file_sessions s project_path f :
  In s (file_sessions project_path f) <->
  stem f <> "sessions-index" /\ session_of project_path f = Ok (Some s).
Proof.
  unfold file_sessions.
  destruct (String.eqb_spec (stem f) "sessions-index") as [Heq|Hne].
  { split; [done|]. by intros [? _]. }
  destruct (session_of project_path f) as [[s'|]|e]; simpl.
  - split.
    + intros [->|[]]. done.
    + intros [_ [= ->]]. by left.
  - split; [done|]. by intros [_ ?].
  - split; [done|]. by intros [_ ?].
Qed.

Lemma session_of_Some project_path f s :
  session_of project_path f = Ok (Some s) <->
  exists mtime size lines first rest session_info preview,
    stat f = Some (mtime, size)
    /\ file_lines f = Some lines
    /\ parse_session lines = Ok (first :: rest, session_info)
    /\ preview_of (Message.content first) = Ok preview
    /\ s = Session.make (stem f) project_path (file_path f) mtime size
             (length (first :: rest)) preview
             (default (JStr EmptyString) (session_info !! "summary")).
Proof.
  unfold session_of. split.
  - destruct (stat f) as [[mtime size]|]; [|done].
    destruct (file_lines f) as [lines|]; [|done].
    destruct (parse_session lines) as [[messages session_info]|e] eqn:Hparse;
      [|done].
    simpl. destruct messages as [|first rest]; [done|].
    destruct (preview_of (Message.content first)) as [preview|e] eqn:Hpreview;
      [|done].
    simpl. intros [= <-].
    eexists _, _, _, _, _, _, _. repeat split; eauto.
  - intros (mtime & size & lines & first & rest & session_info & preview
            & -> & -> & -> & Hpreview & ->).
    simpl. by rewrite Hpreview.
Qed.

Lemma preview_of_bounded first_msg preview :
  preview_of first_msg = Ok preview -> preview_bounded preview.
Proof.
  assert (Hstr : forall s p,
            (if 150 <? String.length s
             then Ok (JStr (PyStr.take 150 s +:+ "..."))
             else Ok (JStr s)) = Ok p -> preview_bounded p).
  { intros s p. destruct (Nat.ltb_spec 150 (String.length s)); intros Hp.
    - assert (Heq : JStr (PyStr.take 150 s +:+ "...") = p) by congruence.
      rewrite <- Heq. unfold preview_bounded.
      rewrite length_append. pose proof (take_length 150 s).
      change (String.length "...") with 3. lia.
    - injection Hp as <-. unfold preview_bounded. lia. }
  unfold preview_of. destruct first_msg as [|b|n|f|s|items|fields];
    try discriminate.
  - apply Hstr.
  - destruct (extract_text_content (JArr items)) as [s|e]; [|discriminate].
    apply Hstr.
  - simpl. destruct (Nat.ltb_spec 150 (length fields)); [discriminate|].
    by intros [= <-].
Qed.

Lemma replace_char_absent c r s :
  PyOps.mem_char c r = false ->
  PyOps.mem_char c (PyStr.replace_char c r s) = false.
Proof.
  intros Hr. induction s as [|a s IH]; simpl; [done|].
  destruct (Ascii.eqb a c) eqn:Ha.
  - by rewrite mem_char_append, Hr, IH.
  - simpl. by rewrite Ha, IH.
Qed.

Lemma file_sessions_left_out project_path f :
  left_out f -> file_sessions project_path f = [].
Proof.
  unfold file_sessions, session_of.
  intros [->|[Hstat|[Hlines|[(lines & e & Hlines & Hparse)
                             |[(lines & info & Hlines & Hparse)
                              |(lines & first & rest & info & e
                                & Hlines & Hparse & Hpreview)]]]]];
    [done|..];
    destruct (String.eqb (stem f) "sessions-index"); try done.
  - by rewrite Hstat.
  - rewrite Hlines. by destruct (stat f) as [[? ?]|].
  - rewrite Hlines, Hparse. by destruct (stat f) as [[? ?]|].
  - rewrite Hlines, Hparse. by destruct (stat f) as [[? ?]|].
  - rewrite Hlines, Hparse. destruct (stat f) as [[? ?]|]; [|done].
    simpl. by rewrite Hpreview.
Qed.

(** X11: every entry of the catalogue stems from a [*.jsonl] file of a
    project directory other than the index file: it has the stem, the
    path, the modification time and the size of the file, the name of the
    directory with slashes for hyphens, and the count and the summary of
    a transcript that normalises to at least one Message. *)
Theorem catalog_entry_provenance projects s :
  In s (get_all_sessions projects) ->
  exists entries p f lines messages session_info,
    projects = Some entries
    /\ In p entries /\ is_dir p = true /\ In f (jsonl_files p)
    /\ stem f <> "sessions-index"
    /\ Session.id s = stem f
    /\ Session.path s = file_path f
    /\ Session.project s = PyStr.replace_char "-" "/" (name p)
    /\ stat f = Some (Session.modified s, Session.size s)
    /\ file_lines f = Some lines
    /\ parse_session lines = Ok (messages, session_info)
    /\ messages <> []
    /\ Session.message_count s = length messages
    /\ Session.summary s
       = default (JStr EmptyString) (session_info !! "summary").
Proof.
  destruct projects as [entries|]; [|done]. simpl.
  intros (p & f & Hp & Hdir & Hf & Hs)%in_sort_modified_reverse
         %in_collected_sessions.
  apply in_file_sessions in Hs as [Hstem Hs].
  apply session_of_Some in Hs
    as (mtime & size & lines & first & rest & session_info & preview
        & Hstat & Hlines & Hparse & _ & ->).
  exists entries, p, f, lines, (first :: rest), session_info.
  by repeat split.
Qed.

(** X12: the preview of every entry of the catalogue is a string of at
    most 153 characters, the first 150 of the text and an ellipsis, or a
    mapping of at most 150 keys; and its project path holds no hyphen. *)
Theorem catalog_entry_shape projects s :
  In s (get_all_sessions projects) ->
  preview_bounded (Session.preview s)
  /\ PyOps.mem_char "-" (Session.project s) = false.
Proof.
  destruct projects as [entries|]; [|done]. simpl.
  intros (p & f & Hp & Hdir & Hf & Hs)%in_sort_modified_reverse
         %in_collected_sessions.
  apply in_file_sessions in Hs as [Hstem Hs].
  apply session_of_Some in Hs
    as (mtime & size & lines & first & rest & session_info & preview
        & Hstat & Hlines & Hparse & Hpreview & ->).
  simpl. split.
  - by apply preview_of_bounded in Hpreview.
  - by apply replace_char_absent.
Qed.

(** X13: a transcript of a project directory, other than the index file,
    that can be read, normalises to at least one Message and has a
    preview is an entry of the catalogue. *)
Theorem readable_transcript_is_listed
  entries p f mtime size lines first rest session_info preview :
  In p entries ->
  is_dir p = true ->
  In f (jsonl_files p) ->
  stem f <> "sessions-index" ->
  stat f = Some (mtime, size) ->
  file_lines f = Some lines ->
  parse_session lines = Ok (first :: rest, session_info) ->
  preview_of (Message.content first) = Ok preview ->
  In (Session.make (stem f) (PyStr.replace_char "-" "/" (name p))
        (file_path f) mtime size (length (first :: rest)) preview
        (default (JStr EmptyString) (session_info !! "summary")))
     (get_all_sessions (Some entries)).
Proof.
  intros Hp Hdir Hf Hstem Hstat Hlines Hparse Hpreview. simpl.
  apply in_sort_modified_reverse, in_collected_sessions.
  exists p, f. repeat split; try done.
  apply in_file_sessions. split; [done|].
  apply session_of_Some.
  eexists _, _, _, _, _, _, _. repeat split; eauto.
Qed.

(** X14: a file that cannot be read, whose transcript raises, yields no
    Message or has a first Message without a preview, or that is the index
    file, is left out without a trace: the catalogue is the one of the
    tree without the file. *)
Theorem failing_file_is_left_out before after dir_name dir files_before f files_after :
  left_out f ->
  get_all_sessions
    (Some (before
           ++ {| name := dir_name; is_dir := dir;
                 jsonl_files := files_before ++ f :: files_after |}
           :: after))
  = get_all_sessions
      (Some (before
             ++ {| name := dir_name; is_dir := dir;
                   jsonl_files := files_before ++ files_after |}
             :: after)).
Proof.
  intros Hout. simpl. f_equal. unfold collected_sessions.
  rewrite !flat_map_app. simpl. f_equal. f_equal.
  unfold project_sessions. simpl. destruct dir; [|done].
  rewrite !flat_map_app. simpl.
  by rewrite (file_sessions_left_out _ _ Hout).
Qed.

End CatalogExtras.
(* ===================================================================== *)
(** ** truncate_path *)
(* ===================================================================== *)

Section TruncatePath.
Import PyStr PyOps.
Local Arguments String.append : simpl nomatch.

Lemma split_char_cons c s : exists part parts, split_char c s = part :: parts.
Proof.
  destruct s as [|a s]; simpl; [by eexists _, _|].
  destruct (Ascii.eqb a c); [by eexists _, _|].
  destruct (split_char c s); by eexists _, _.
Qed.

Lemma join_cons sep x y rest :
  join sep (x :: y :: rest) = x +:+ sep +:+ join sep (y :: rest).
Proof. done. Qed.

(** Joining what a split gave returns the text. *)
Lemma join_split_char c s :
  join (String c EmptyString) (split_char c s) = s.
Proof.
  induction s as [|a s IH]; simpl; [done|].
  destruct (split_char_cons c s) as (part & parts & Hsplit).
  rewrite Hsplit in IH |- *.
  destruct (Ascii.eqb_spec a c) as [->|Hne].
  - rewrite join_cons, IH. done.
  - destruct parts as [|part' parts].
    + simpl in IH |- *. by rewrite IH.
    + rewrite join_cons in IH |- *. by rewrite <- IH.
Qed.

Lemma split_char_parts c s :
  Forall (fun part => mem_char c part = false) (split_char c s).
Proof.
  induction s as [|a s IH]; simpl; [by repeat constructor|].
  destruct (Ascii.eqb a c) eqn:Ha; [by constructor|].
  destruct (split_char c s) as [|part parts]; [by repeat constructor; simpl; rewrite Ha|].
  inversion IH as [|? ? Hpart Hparts]; subst.
  constructor; [|done]. simpl. by rewrite Ha.
Qed.

Lemma split_char_append c x t :
  mem_char c x = false ->
  split_char c (x +:+ String c t) = x :: split_char c t.
Proof.
  induction x as [|a x IH]; simpl.
  { intros _. by rewrite Ascii.eqb_refl. }
  intros [Ha Hx]%orb_false_elim. by rewrite Ha, IH.
Qed.

Lemma split_char_whole c x : mem_char c x = false -> split_char c x = [x].
Proof.
  induction x as [|a x IH]; simpl; [done|].
  intros [Ha Hx]%orb_false_elim. by rewrite Ha, IH.
Qed.

(** Splitting what a join of parts without the separator gave returns the
    parts. *)
Lemma split_char_join c part parts :
  Forall (fun part => mem_char c part = false) (part :: parts) ->
  split_char c (join (String c EmptyString) (part :: parts)) = part :: parts.
Proof.
  revert part. induction parts as [|part' parts IH]; intros part Hall.
  - simpl. apply split_char_whole. by inversion Hall.
  - inversion Hall as [|? ? Hpart Hrest]; subst.
    rewrite join_cons.
    change (String c EmptyString +:+ ?t) with (String c t).
    by rewrite split_char_append, IH.
Qed.

Lemma join_app sep x xs y ys :
  join sep ((x :: xs) ++ y :: ys)
  = join sep (x :: xs) +:+ sep +:+ join sep (y :: ys).
Proof.
  revert x. induction xs as [|x' xs IH]; intros x; [done|].
  change ((x :: x' :: xs) ++ y :: ys) with (x :: ((x' :: xs) ++ y :: ys)).
  change ((x' :: xs) ++ y :: ys) with (x' :: (xs ++ y :: ys)).
  rewrite join_cons. change (x' :: (xs ++ y :: ys)) with ((x' :: xs) ++ y :: ys).
  rewrite IH, join_cons. by rewrite !append_assoc.
Qed.

Lemma rstrip_char_idempotent c s :
  rstrip_char c (rstrip_char c s) = rstrip_char c s.
Proof.
  induction s as [|a s IH]; simpl; [done|].
  destruct (Ascii.eqb a c && is_empty (rstrip_char c s)) eqn:Hcut; [done|].
  simpl. by rewrite IH, Hcut.
Qed.

(** What stands behind any point of a text without trailing [c] has no
    trailing [c] either. *)
Lemma rstrip_char_tail c x y :
  rstrip_char c (x +:+ y) = x +:+ y -> rstrip_char c y = y.
Proof.
  induction x as [|a x IH]; simpl; [done|].
  destruct (Ascii.eqb a c && is_empty (rstrip_char c (x +:+ y)));
    [discriminate|].
  intros [= H]. by apply IH.
Qed.

Lemma rstrip_char_append c x y :
  rstrip_char c y = y -> y <> EmptyString ->
  rstrip_char c (x +:+ y) = x +:+ y.
Proof.
  intros Hy Hne. induction x as [|a x IH]; simpl; [done|].
  rewrite IH. destruct (x +:+ y) eqn:Hxy.
  - destruct x; [|discriminate Hxy]. simpl in Hxy. by subst.
  - simpl. by rewrite andb_false_r.
Qed.

Lemma slice_from_last {A : Type} (n : nat) (l : list A) :
  0 < n -> n < length l ->
  slice_from (- Z.of_nat n) l = skipn (length l - n) l.
Proof.
  intros Hpos Hlt. unfold slice_from, slice_index.
  destruct (Z.ltb_spec (- Z.of_nat n) 0); [|lia]. f_equal. lia.
Qed.

(** The shape of a truncated path: the components dropped and kept. *)
Lemma truncate_path_long path max_parts :
  (1 <= max_parts)%Z ->
  (max_parts < Z.of_nat (length (split_char "/" (strip_char "/" path))))%Z ->
  exists x xs y ys,
    split_char "/" (strip_char "/" path) = (x :: xs) ++ y :: ys
    /\ Z.of_nat (length (y :: ys)) = max_parts
    /\ truncate_path path max_parts = ".../" +:+ join "/" (y :: ys)
    /\ strip_char "/" path
       = join "/" (x :: xs) +:+ "/" +:+ join "/" (y :: ys).
Proof.
  intros Hone Hlong. unfold truncate_path.
  set (parts := split_char "/" (strip_char "/" path)) in *.
  destruct (Z.leb_spec (Z.of_nat (length parts)) max_parts); [lia|].
  assert (Hslice : slice_from (- max_parts) parts
                   = skipn (length parts - Z.to_nat max_parts) parts).
  { rewrite <- (Z2Nat.id max_parts) at 1 by lia.
    apply slice_from_last; lia. }
  rewrite Hslice.
  set (k := length parts - Z.to_nat max_parts).
  assert (Hk : 0 < k < length parts) by (unfold k; lia).
  assert (Hparts : parts = firstn k parts ++ skipn k parts)
    by by rewrite firstn_skipn.
  destruct (firstn k parts) as [|x xs] eqn:Htake.
  { apply (f_equal length) in Htake. rewrite length_take in Htake.
    simpl in Htake. lia. }
  destruct (skipn k parts) as [|y ys] eqn:Hdrop.
  { apply (f_equal length) in Hdrop. rewrite length_drop in Hdrop.
    simpl in Hdrop. lia. }
  exists x, xs, y, ys. split; [done|].
  split. { rewrite <- Hdrop, length_drop. unfold k. lia. }
  split; [done|].
  rewrite <- (join_split_char "/" (strip_char "/" path)). fold parts.
  rewrite Hparts. apply join_app.
Qed.

(** X15: when a path has more than [max_parts] components, for a
    [max_parts] of at least one, what is returned is the ellipsis and the
    last [max_parts] components as they stand in the path: the stripped
    path is the components dropped, a slash, and the components kept. *)
Theorem truncate_path_keeps_tail path max_parts :
  (1 <= max_parts)%Z ->
  (max_parts < Z.of_nat (length (split_char "/" (strip_char "/" path))))%Z ->
  exists dropped kept,
    split_char "/" (strip_char "/" path) = dropped ++ kept
    /\ dropped <> []
    /\ Z.of_nat (length kept) = max_parts
    /\ truncate_path path max_parts = ".../" +:+ join "/" kept
    /\ strip_char "/" path = join "/" dropped +:+ "/" +:+ join "/" kept.
Proof.
  intros Hone Hlong.
  destruct (truncate_path_long path max_parts Hone Hlong)
    as (x & xs & y & ys & Hparts & Hlen & Hresult & Hstripped).
  by exists (x :: xs), (y :: ys).
Qed.

(** X16: truncating twice gives what truncating once gives, for a
    [max_parts] of at least one. *)
Theorem truncate_path_idempotent path max_parts :
  (1 <= max_parts)%Z ->
  truncate_path (truncate_path path max_parts) max_parts
  = truncate_path path max_parts.
Proof.
  intros Hone.
  destruct (Z.leb_spec
              (Z.of_nat (length (split_char "/" (strip_char "/" path))))
              max_parts) as [Hshort|Hlong].
  { assert (Hsame : truncate_path path max_parts = path).
    { unfold truncate_path.
      by destruct (Z.leb_spec
                     (Z.of_nat (length (split_char "/" (strip_char "/" path))))
                     max_parts); [|lia]. }
    by rewrite !Hsame. }
  destruct (truncate_path_long path max_parts Hone Hlong)
    as (x & xs & y & ys & Hparts & Hlen & Hresult & Hstripped).
  rewrite Hresult.
  assert (Hfree : Forall (fun part => mem_char "/" part = false) (y :: ys)).
  { pose proof (split_char_parts "/" (strip_char "/" path)) as Hall.
    rewrite Hparts in Hall. by apply Forall_app in Hall as [_ ?]. }
  assert (Hkept : rstrip_char "/" (join "/" (y :: ys)) = join "/" (y :: ys)
                  /\ join "/" (y :: ys) <> EmptyString).
  { assert (Hwhole : rstrip_char "/" (strip_char "/" path)
                     = strip_char "/" path)
      by apply rstrip_char_idempotent.
    rewrite Hstripped in Hwhole.
    rewrite <- append_assoc in Hwhole.
    split.
    - by apply rstrip_char_tail in Hwhole.
    - intros Hnil. rewrite Hnil in Hwhole.
      rewrite append_assoc in Hwhole. by apply rstrip_char_tail in Hwhole. }
  destruct Hkept as [Hkept Hne].
  assert (Hstrip : strip_char "/" (".../" +:+ join "/" (y :: ys))
                   = ".../" +:+ join "/" (y :: ys)).
  { unfold strip_char.
    change (lstrip_char "/" (".../" +:+ join "/" (y :: ys)))
      with (".../" +:+ join "/" (y :: ys)).
    by apply rstrip_char_append. }
  assert (Hsplit : split_char "/" (".../" +:+ join "/" (y :: ys))
                   = "..." :: y :: ys).
  { change (".../" +:+ join "/" (y :: ys))
      with (join "/" ("..." :: y :: ys)).
    apply split_char_join. by constructor. }
  unfold truncate_path. rewrite Hstrip, Hsplit.
  change (length ("..." :: y :: ys)) with (S (length (y :: ys))).
  destruct (Z.leb_spec (Z.of_nat (S (length (y :: ys)))) max_parts); [lia|].
  do 2 f_equal. unfold slice_from, slice_index.
  destruct (Z.ltb_spec (- max_parts) 0); [|lia].
  change (length ("..." :: y :: ys)) with (S (length (y :: ys))).
  replace (Z.to_nat (Z.max 0 (Z.of_nat (S (length (y :: ys))) + - max_parts)))
    with 1 by lia.
  done.
Qed.

(** X17: with a [max_parts] of zero the slice [parts[-0:]] is the whole
    list: the path is never shortened, it is returned stripped of its
    outer slashes behind the ellipsis. *)
Theorem truncate_path_zero_parts path :
  truncate_path path 0 = ".../" +:+ strip_char "/" path.
Proof.
  unfold truncate_path.
  destruct (split_char_cons "/" (strip_char "/" path))
    as (part & parts & Hsplit).
  rewrite <- (join_split_char "/" (strip_char "/" path)) at 3.
  by rewrite Hsplit.
Qed.

End TruncatePath.

(* ===================================================================== *)
(** ** The live server and the limit *)
(* ===================================================================== *)

Section ServerExtras.
Context {lib : Library}.
Import PyOps.
Local Arguments String.append : simpl nomatch.

Lemma prefix_refl s : String.prefix s s = true.
Proof.
  induction s as [|a s IH]; simpl; [done|].
  by destruct (ascii_dec a a).
Qed.




Lemma prefix_length sub s :
  String.prefix sub s = true -> String.length sub <= String.length s.
Proof.
  revert s. induction sub as [|a sub IH]; intros [|b s]; simpl; try done; try lia.
  destruct (ascii_dec a b); [|done]. intros H%IH. lia.
Qed.

Lemma prefix_same_length sub s :
  String.prefix sub s = true -> String.length sub = String.length s -> sub = s.
Proof.
  revert s. induction sub as [|a sub IH]; intros [|b s]; simpl; try done.
  destruct (ascii_dec a b) as [->|]; [|done].
  intros Hp [= Hl]. f_equal. by apply IH.
Qed.

Lemma contains_nil s : contains EmptyString s = true.
Proof. by destruct s. Qed.

Lemma contains_refl s : contains s s = true.
Proof. destruct s; simpl; [done|]. by destruct (ascii_dec a a); [rewrite prefix_refl|]. Qed.

Lemma contains_length sub s :
  contains sub s = true -> String.length sub <= String.length s.
Proof.
  induction s as [|a s IH]; simpl.
  - rewrite orb_false_r. destruct sub; [done|discriminate].
  - intros [Hp|Hc]%orb_prop.
    + apply (prefix_length sub (String a s)) in Hp. simpl in Hp. lia.
    + apply IH in Hc. lia.
Qed.

(** An id of the length of another one occurs in it only when it is the
    same. *)
Lemma contains_same_length sub s :
  contains sub s = true -> String.length sub = String.length s -> sub = s.
Proof.
  destruct s as [|a s]; simpl.
  - rewrite orb_false_r. destruct sub; [done|discriminate].
  - intros [Hp|Hc]%orb_prop Hlen.
    + by apply (prefix_same_length sub (String a s)).
    + apply contains_length in Hc. lia.
Qed.






(** The first of the items of a sorted list that pass a test. *)
Lemma filter_sorted_head (test : Session.t -> bool) l s rest :
  StronglySorted newer_or_equal l ->
  List.filter test l = s :: rest ->
  In s l /\ test s = true
  /\ forall s', In s' l -> test s' = true -> newer_or_equal s s'.
Proof.
  induction 1 as [|x l Hsorted IH Hall]; simpl; [done|].
  destruct (test x) eqn:Hx.
  - intros [= -> _]. split; [by left|]. split; [done|].
    intros s' [<-|Hin] _.
    + unfold newer_or_equal. lia.
    + by apply (proj1 (List.Forall_forall _ _) Hall).
  - intros Hfilter. destruct (IH Hfilter) as (Hin & Hs & Hnewest).
    split; [by right|]. split; [done|].
    intros s' [<-|Hin'] Hs'; [congruence|by apply Hnewest].
Qed.

Lemma get_all_sessions_sorted projects :
  StronglySorted newer_or_equal (get_all_sessions projects).
Proof.
  destruct projects; simpl; [apply sort_modified_reverse_sorted|constructor].
Qed.

Lemma sorted_app_order (l1 l2 : list Session.t) a b :
  StronglySorted newer_or_equal (l1 ++ l2) ->
  In a l1 -> In b l2 -> newer_or_equal a b.
Proof.
  induction l1 as [|x l1 IH]; simpl; [done|].
  intros Hsorted [->|Hin] Hb; inversion Hsorted as [|? ? Htail Hall]; subst.
  - apply (proj1 (List.Forall_forall _ _) Hall). apply in_or_app. by right.
  - by apply IH.
Qed.


(** X19: of the sessions whose id holds the requested text, the one
    modified last is served, the first discovered among equals; the
    answer is 404 only when no id holds the text. *)
Theorem serve_session_newest_match projects session_id :
  let catalog := get_all_sessions projects in
  match serve_session catalog session_id with
  | SessionPage s =>
      In s catalog
      /\ contains session_id (Session.id s) = true
      /\ forall s', In s' catalog ->
           contains session_id (Session.id s') = true ->
           (Session.modified s' <= Session.modified s)%Z
  | NotFound =>
      forall s', In s' catalog ->
        contains session_id (Session.id s') = false
  | _ => False
  end.
Proof.
  intros catalog. unfold serve_session, matching.
  destruct (List.filter _ catalog) as [|s rest] eqn:Hfilter.
  - intros s' Hin.
    destruct (contains session_id (Session.id s')) eqn:Hs'; [|done].
    assert (Hin' : In s' (List.filter
                            (fun s => contains session_id (Session.id s))
                            catalog))
      by (apply filter_In; by split).
    by rewrite Hfilter in Hin'.
  - apply filter_sorted_head in Hfilter
      as (Hin & Hs & Hnewest); [|apply get_all_sessions_sorted].
    done.
Qed.

(** X20: a request for [/session/] without an id is answered with the
    newest session of the catalogue, since the empty text occurs in every
    id; it is 404 only when there is no session at all. *)
Theorem empty_session_id_serves_newest projects :
  do_GET projects "/session/"
  = match get_all_sessions projects with
    | [] => NotFound
    | s :: _ => SessionPage s
    end
  /\ do_GET projects "/session/.html" = do_GET projects "/session/".
Proof.
  assert (Hall : forall l : list Session.t,
            List.filter (fun s => contains EmptyString (Session.id s)) l = l).
  { induction l as [|s l IH]; simpl; [done|].
    by rewrite contains_nil, IH. }
  unfold do_GET. simpl. unfold serve_session, matching.
  change (replace ".html" EmptyString
            (replace "/session/" EmptyString "/session/")) with EmptyString.
  change (replace ".html" EmptyString
            (replace "/session/" EmptyString "/session/.html"))
    with EmptyString.
  by rewrite Hall.
Qed.

(** X21: where the ids of the sessions all have one length and no two
    sessions share an id, as with the identifiers of the transcripts, the
    session served for the id of a session is that session. *)
Theorem exact_id_is_served sessions s :
  In s sessions ->
  (forall s', In s' sessions ->
     String.length (Session.id s') = String.length (Session.id s)) ->
  (forall s', In s' sessions -> Session.id s' = Session.id s -> s' = s) ->
  serve_session sessions (Session.id s) = SessionPage s.
Proof.
  intros Hin Hlength Hunique. unfold serve_session, matching.
  destruct (List.filter _ sessions) as [|s' rest] eqn:Hfilter.
  - assert (Hin' : In s (List.filter
                           (fun x => contains (Session.id s) (Session.id x))
                           sessions))
      by (apply filter_In; split; [done|apply contains_refl]).
    by rewrite Hfilter in Hin'.
  - assert (Hs' : In s' (List.filter
                           (fun x => contains (Session.id s) (Session.id x))
                           sessions))
      by (rewrite Hfilter; by left).
    apply filter_In in Hs' as [Hin' Hcontains].
    f_equal. apply Hunique; [done|]. symmetry.
    apply contains_same_length; [done|]. symmetry. by apply Hlength.
Qed.

(** X22: the limit keeps the head of the catalogue: the sessions written
    or printed are the first ones, none of those left out is newer than
    one that is kept; a negative limit leaves out that many of the
    oldest. *)
Theorem limit_keeps_newest projects limit :
  let catalog := get_all_sessions projects in
  let kept := limited_sessions projects limit in
  exists dropped,
    catalog = kept ++ dropped
    /\ (forall a b, In a kept -> In b dropped ->
          (Session.modified b <= Session.modified a)%Z)
    /\ ((0 <= limit)%Z ->
        length kept = Nat.min (Z.to_nat limit) (length catalog))
    /\ ((limit < 0)%Z ->
        length kept = length catalog - Z.to_nat (- limit)).
Proof.
  intros catalog kept. unfold kept, limited_sessions, slice_to. fold catalog.
  set (k := slice_index limit (length catalog)).
  exists (skipn k catalog).
  split; [by rewrite firstn_skipn|].
  split.
  - intros a b Ha Hb.
    apply (sorted_app_order (firstn k catalog) (skipn k catalog)); try done.
    rewrite firstn_skipn. apply get_all_sessions_sorted.
  - unfold k, slice_index. split; intros Hlimit.
    + destruct (Z.ltb_spec limit 0); [lia|]. rewrite length_take. lia.
    + destruct (Z.ltb_spec limit 0); [|lia]. rewrite length_take. lia.
Qed.

End ServerExtras.

(* ===================================================================== *)
(** ** More worked examples *)
(* ===================================================================== *)

Section MoreExamples.
Import Sample.

Local Ltac evaluate := vm_compute; reflexivity.
Local Ltac all_items := repeat constructor; evaluate.


(** X1 at the two messages of a transcript. *)
Lemma messages_have_chat_roles_witness :
  parse_session [Example.user_hello; Example.assistant_hi]
  = Ok ([message_hello; message_hi], info_hello)
  /\ Forall (fun m => Message.role m = JStr "user"
                      \/ Message.role m = JStr "assistant")
       [message_hello; message_hi].
Proof.
  assert (Hparse : parse_session [Example.user_hello; Example.assistant_hi]
                   = Ok ([message_hello; message_hi], info_hello))
    by evaluate.
  split; [exact Hparse|].
  exact (messages_have_chat_roles _ _ _ Hparse).
Defined.

(** X2 at a summary and a message appended to a transcript of one
    message. *)
Lemma appended_lines_keep_messages_witness :
  parse_session [Example.user_hello] = Ok ([message_hello], info_hello)
  /\ parse_session
       ([Example.user_hello] ++ [Example.summary_B; Example.assistant_hi])
     = Ok ([message_hello; message_hi],
           <["summary" := JStr "B"]> info_hello)
  /\ [message_hello; message_hi]
     = [message_hello]
       ++ map to_message
            (List.filter emits
               (records [Example.summary_B; Example.assistant_hi]))
  /\ (Py.truthy (info_get info_hello "sessionId") = true ->
      forall k, k <> "summary" ->
        <["summary" := JStr "B"]> info_hello !! k = info_hello !! k).
Proof.
  assert (Hold : parse_session [Example.user_hello]
                 = Ok ([message_hello], info_hello)) by evaluate.
  assert (Hnew : parse_session
                   ([Example.user_hello]
                    ++ [Example.summary_B; Example.assistant_hi])
                 = Ok ([message_hello; message_hi],
                       <["summary" := JStr "B"]> info_hello)) by evaluate.
  split; [exact Hold|]. split; [exact Hnew|].
  exact (appended_lines_keep_messages _ _ _ _ _ _ Hold Hnew).
Defined.

(** X3 at the same transcript. *)
Lemma session_info_keys_witness :
  parse_session [Example.user_hello; Example.assistant_hi]
  = Ok ([message_hello; message_hi], info_hello)
  /\ (forall k, is_Some (info_hello !! k) -> In k info_keys)
  /\ (info_hello !! "sessionId" = None <-> [message_hello; message_hi] = [])
  /\ (is_Some (info_hello !! "cwd") <-> is_Some (info_hello !! "sessionId"))
  /\ (is_Some (info_hello !! "version")
      <-> is_Some (info_hello !! "sessionId")).
Proof.
  assert (Hparse : parse_session [Example.user_hello; Example.assistant_hi]
                   = Ok ([message_hello; message_hi], info_hello))
    by evaluate.
  split; [exact Hparse|].
  exact (session_info_keys _ _ _ Hparse).
Defined.

(** X5 at a message without [sessionId] before one with it. *)
Lemma first_session_id_wins_witness :
  Forall (fun line => line_ok line = true)
    ([user_bare] ++ Example.user_hello :: [Example.assistant_hi])
  /\ Forall (fun line => emits_without_session_id line = true) [user_bare]
  /\ line_emits user_bare = true
  /\ exists messages session_info,
      parse_session
        ([user_bare] ++ Example.user_hello :: [Example.assistant_hi])
      = Ok (messages, session_info)
      /\ session_info !! "sessionId" = Some (JStr "s1")
      /\ session_info !! "cwd" = Some (JStr "/a")
      /\ session_info !! "version" = Some (JStr "1.0").
Proof.
  split; [all_items|]. split; [all_items|]. split; [evaluate|].
  apply (first_session_id_wins [user_bare] Example.user_hello
           [Example.assistant_hi]
           [("type", JStr "user"); ("sessionId", JStr "s1");
            ("cwd", JStr "/a"); ("version", JStr "1.0");
            ("uuid", JStr "u1");
            ("message",
             JObj [("role", JStr "user"); ("content", JStr "hello")])]).
  - all_items.
  - all_items.
  - evaluate.
  - evaluate.
  - evaluate.
Defined.

(** X6 at two messages without [sessionId] and a summary behind them. *)
Lemma last_message_wins_without_session_id_witness :
  Forall (fun line => line_ok line = true)
    ([user_bare] ++ assistant_bare :: [Example.summary_A])
  /\ Forall (fun line => emits_without_session_id line = true)
       ([user_bare] ++ [assistant_bare])
  /\ Forall (fun line => line_emits line = false) [Example.summary_A]
  /\ exists messages session_info,
      parse_session ([user_bare] ++ assistant_bare :: [Example.summary_A])
      = Ok (messages, session_info)
      /\ session_info !! "sessionId" = Some (JStr EmptyString)
      /\ session_info !! "cwd" = Some (JStr "/y")
      /\ session_info !! "version" = Some (JStr EmptyString).
Proof.
  split; [all_items|]. split; [all_items|]. split; [all_items|].
  apply (last_message_wins_without_session_id [user_bare] assistant_bare
           [Example.summary_A]
           [("type", JStr "assistant"); ("cwd", JStr "/y");
            ("message", JObj [("content", JStr "two")])]).
  - all_items.
  - all_items.
  - evaluate.
  - evaluate.
  - all_items.
Defined.

(** X7 at an image block, a number and a bare string. *)
Lemma unknown_blocks_render_placeholder_witness :
  Forall (fun item => unknown_block item = true)
    [JObj [("type", JStr "image")]; JInt 3; JStr "raw"]
  /\ render_message_content
       (JArr [JObj [("type", JStr "image")]; JInt 3; JStr "raw"])
     = Ok empty_message_html.
Proof.
  split; [all_items|].
  apply (unknown_blocks_render_placeholder
           [JObj [("type", JStr "image")]; JInt 3; JStr "raw"]).
  all_items.
Defined.

(** X8 at a Bash block and at a block of another tool, both with a
    string as [input]. *)
Lemma tool_input_not_a_mapping_witness :
  render_message_content
    (JArr [JObj [("type", JStr "tool_use"); ("name", JStr "Bash");
                 ("input", JStr "ls")]])
  = Raise AttributeError
  /\ render_message_content
       (JArr [JObj [("type", JStr "tool_use"); ("name", JStr "WebFetch");
                    ("input", JInt 7)]])
     = Ok (tool_call_html "🔧 WebFetch" "7").
Proof.
  split.
  - rewrite (tool_input_not_a_mapping
               [("type", JStr "tool_use"); ("name", JStr "Bash");
                ("input", JStr "ls")] "Bash" (JStr "ls"));
      evaluate.
  - rewrite (tool_input_not_a_mapping
               [("type", JStr "tool_use"); ("name", JStr "WebFetch");
                ("input", JInt 7)] "WebFetch" (JInt 7));
      evaluate.
Defined.

(** X9 at a tool result that holds markup. *)
Lemma units_are_escaped_witness :
  render_item
    (JObj [("type", JStr "tool_result"); ("content", JStr "<b>hi</b>")])
  = Ok [tool_call_html "📤 Tool Result" "&lt;b&gt;hi&lt;/b&gt;"]
  /\ Forall escaped_unit
       [tool_call_html "📤 Tool Result" "&lt;b&gt;hi&lt;/b&gt;"].
Proof.
  split; [evaluate|].
  apply (units_are_escaped
           [("type", JStr "tool_result"); ("content", JStr "<b>hi</b>")]);
    evaluate.
Defined.

(** X10 at a text block whose [text] is a number, behind a sound one. *)
Lemma text_not_a_string_raises_witness :
  extract_text_content
    (JArr [Example.text_hi; JObj [("type", JStr "text"); ("text", JInt 5)]])
  = Raise TypeError
  /\ render_message_content
       (JArr [Example.text_hi;
              JObj [("type", JStr "text"); ("text", JInt 5)]])
     = Raise AttributeError.
Proof.
  apply (text_not_a_string_raises
           [Example.text_hi; JObj [("type", JStr "text"); ("text", JInt 5)]]
           (JObj [("type", JStr "text"); ("text", JInt 5)])).
  - right. by left.
  - evaluate.
Defined.

(** X23 at a result of 2000 characters. *)
Lemma tool_result_is_truncated_witness :
  render_message_content
    (JArr [JObj [("type", JStr "tool_result");
                 ("content", JStr Example.long_body)]])
  = Ok (tool_call_html "📤 Tool Result"
          (PyStr.take 1000 Example.long_body +:+ truncated_marker)).
Proof.
  destruct (tool_result_is_truncated
              [("type", JStr "tool_result");
               ("content", JStr Example.long_body)])
    as (Hrender & _); [evaluate|].
  rewrite Hrender. evaluate.
Defined.

(** X24 at a tool of another name with an empty input. *)
Lemma generic_tool_body_witness :
  render_message_content
    (JArr [JObj [("type", JStr "tool_use"); ("name", JStr "WebFetch")]])
  = Ok (tool_call_html "🔧 WebFetch" "{}").
Proof.
  destruct (generic_tool_body
              [("type", JStr "tool_use"); ("name", JStr "WebFetch")]
              "WebFetch")
    as (Hrender & _); [evaluate|evaluate|evaluate|].
  rewrite Hrender. evaluate.
Defined.

(** The catalogue of the sample tree. *)
Lemma sample_catalog :
  get_all_sessions projects = [session_b; session_a; session_c].
Proof. evaluate. Qed.

(** X11 at the newest entry of the sample tree. *)
Lemma catalog_entry_provenance_witness :
  In session_b (get_all_sessions projects)
  /\ exists entries p f lines messages session_info,
      projects = Some entries
      /\ In p entries /\ is_dir p = true /\ In f (jsonl_files p)
      /\ stem f <> "sessions-index"
      /\ Session.id session_b = stem f
      /\ Session.path session_b = file_path f
      /\ Session.project session_b = PyStr.replace_char "-" "/" (name p)
      /\ stat f = Some (Session.modified session_b, Session.size session_b)
      /\ file_lines f = Some lines
      /\ parse_session lines = Ok (messages, session_info)
      /\ messages <> []
      /\ Session.message_count session_b = length messages
      /\ Session.summary session_b
         = default (JStr EmptyString) (session_info !! "summary").
Proof.
  assert (Hin : In session_b (get_all_sessions projects))
    by (rewrite sample_catalog; by left).
  split; [exact Hin|].
  exact (catalog_entry_provenance projects session_b Hin).
Defined.

(** X12 at the same entry. *)
Lemma catalog_entry_shape_witness :
  In session_b (get_all_sessions projects)
  /\ preview_bounded (Session.preview session_b)
  /\ PyOps.mem_char "-" (Session.project session_b) = false.
Proof.
  assert (Hin : In session_b (get_all_sessions projects))
    by (rewrite sample_catalog; by left).
  split; [exact Hin|].
  exact (catalog_entry_shape projects session_b Hin).
Defined.

(** X13 at the first transcript of the first directory. *)
Lemma readable_transcript_is_listed_witness :
  In session_a (get_all_sessions projects).
Proof.
  apply (readable_transcript_is_listed
           [project_one; plain_file; project_two] project_one file_a
           100 2048 [Example.user_hello; Example.assistant_hi]
           message_hello [message_hi] info_hello (JStr "hello")).
  - by left.
  - reflexivity.
  - by left.
  - discriminate.
  - reflexivity.
  - reflexivity.
  - evaluate.
  - evaluate.
Defined.

(** X14 at the transcript of the sample tree that raises. *)
Lemma failing_file_is_left_out_witness :
  left_out file_raising
  /\ get_all_sessions projects
     = get_all_sessions
         (Some [ {| name := "-home-me-proj"; is_dir := true;
                    jsonl_files := [file_a; file_index] ++ [file_silent] |};
                 plain_file; project_two ]).
Proof.
  assert (Hout : left_out file_raising).
  { right. right. right. left.
    exists [Example.user_hello; number_line], AttributeError.
    split; [reflexivity|evaluate]. }
  split; [exact Hout|].
  exact (failing_file_is_left_out [] [plain_file; project_two]
           "-home-me-proj" true [file_a; file_index] file_raising
           [file_silent] Hout).
Defined.

(** X15 at a path of four components. *)
Lemma truncate_path_keeps_tail_witness :
  (1 <= 2)%Z
  /\ (2 < Z.of_nat
            (length (PyOps.split_char "/"
                       (PyOps.strip_char "/" "/home/user/proj/sub/"))))%Z
  /\ exists dropped kept,
      PyOps.split_char "/" (PyOps.strip_char "/" "/home/user/proj/sub/")
      = dropped ++ kept
      /\ dropped <> []
      /\ Z.of_nat (length kept) = 2%Z
      /\ truncate_path "/home/user/proj/sub/" 2
         = ".../" +:+ PyStr.join "/" kept
      /\ PyOps.strip_char "/" "/home/user/proj/sub/"
         = PyStr.join "/" dropped +:+ "/" +:+ PyStr.join "/" kept.
Proof.
  split; [lia|]. split; [vm_compute; reflexivity|].
  apply (truncate_path_keeps_tail "/home/user/proj/sub/" 2).
  - lia.
  - vm_compute. reflexivity.
Defined.

(** X16 at the same path. *)
Lemma truncate_path_idempotent_witness :
  (1 <= 2)%Z
  /\ truncate_path (truncate_path "/home/user/proj/sub/" 2) 2
     = truncate_path "/home/user/proj/sub/" 2.
Proof.
  split; [lia|].
  apply (truncate_path_idempotent "/home/user/proj/sub/" 2). lia.
Defined.


(** X21 at the catalogue of the sample tree. *)
Lemma exact_id_is_served_witness :
  In session_a [session_b; session_a; session_c]
  /\ serve_session [session_b; session_a; session_c] (Session.id session_a)
     = SessionPage session_a.
Proof.
  split; [right; by left|].
  apply (exact_id_is_served [session_b; session_a; session_c] session_a).
  - right. by left.
  - intros s' [<-|[<-|[<-|[]]]]; reflexivity.
  - intros s' [<-|[<-|[<-|[]]]]; [discriminate|reflexivity|discriminate].
Defined.

End MoreExamples.
